(** * Deepsearch: ingestion pipeline, index store, query engine and snippets

    A shallow embedding of [deepsearch.py].  Python strings are sequences of
    Unicode code points, exceptions are an explicit result type, the logger
    and the progress callback are recorded as traces, and the Whoosh index is
    a list of stored documents in document-number order, changed through a
    writer. *)

From Stdlib Require Import String Ascii.
From Stdlib Require Import List NArith ZArith Bool Arith Lia Permutation Sorted.
Import ListNotations.

(** ** Python strings *)

Module Py.

(** A [str] is a sequence of code points; [len] is [length]. *)
Definition char := N.
Definition str := list char.

(** ASCII literals of the source. *)
Definition lit (s : string) : str :=
  map N_of_ascii (list_ascii_of_string s).

Fixpoint eqb (a b : str) : bool :=
  match a, b with
  | [], [] => true
  | x :: a', y :: b' => N.eqb x y && eqb a' b'
  | _, _ => false
  end.

(** [str.isspace] on one code point: the Unicode white space of CPython. *)
Definition isspace (c : char) : bool :=
  ((9 <=? c) && (c <=? 13) || (28 <=? c) && (c <=? 32)
   || (c =? 133) || (c =? 160) || (c =? 5760)
   || (8192 <=? c) && (c <=? 8202)
   || (c =? 8232) || (c =? 8233) || (c =? 8239) || (c =? 8287)
   || (c =? 12288))%N.

Fixpoint lstrip (s : str) : str :=
  match s with
  | [] => []
  | c :: s' => if isspace c then lstrip s' else s
  end.

Definition rstrip (s : str) : str := rev (lstrip (rev s)).

(** [s.strip()] *)
Definition strip (s : str) : str := rstrip (lstrip s).

(** [s.split(sep)] for a one-character separator: never the empty list. *)
Fixpoint split (sep : char) (s : str) : list str :=
  match s with
  | [] => [[]]
  | c :: s' =>
      if N.eqb c sep then [] :: split sep s'
      else match split sep s' with
           | [] => [[c]]
           | w :: ws => (c :: w) :: ws
           end
  end.

(** [sep.join(parts)] *)
Fixpoint join (sep : str) (parts : list str) : str :=
  match parts with
  | [] => []
  | [p] => p
  | p :: ps => p ++ sep ++ join sep ps
  end.

Fixpoint startswith (s p : str) {struct p} : bool :=
  match p, s with
  | [], _ => true
  | x :: p', y :: s' => N.eqb x y && startswith s' p'
  | _ :: _, [] => false
  end.

(** [t in s] on strings: [t] occurs as a contiguous substring of [s]. *)
Fixpoint contains (s t : str) : bool :=
  startswith s t ||
  match s with
  | [] => false
  | _ :: s' => contains s' t
  end.

(** [s[:n]] for a non-negative bound. *)
Definition slice_to (n : nat) (s : str) : str := firstn n s.

(** Truthiness of a string. *)
Definition truthy (s : str) : bool :=
  match s with [] => false | _ => true end.

(** [s.split()] without argument: maximal runs of non-space characters. *)
Fixpoint split_ws_aux (acc : str) (s : str) : list str :=
  match s with
  | [] => match acc with [] => [] | _ => [rev acc] end
  | c :: s' =>
      if isspace c
      then match acc with
           | [] => split_ws_aux [] s'
           | _ => rev acc :: split_ws_aux [] s'
           end
      else split_ws_aux (c :: acc) s'
  end.

Definition split_ws (s : str) : list str := split_ws_aux [] s.

(** [s.lower()] restricted to the ASCII letters; used to run the model on
    ASCII inputs, where it agrees with Python. *)
Definition ascii_lower (s : str) : str :=
  map (fun c => if ((65 <=? c) && (c <=? 90))%N then (c + 32)%N else c) s.

(** [\w] restricted to ASCII: letters, digits and the underscore. *)
Definition ascii_word (c : char) : bool :=
  ((48 <=? c) && (c <=? 57) || (65 <=? c) && (c <=? 90)
   || (c =? 95) || (97 <=? c) && (c <=? 122))%N.

(** [re.sub(rf'\b({re.escape(term)})\b', r'**\1**', s, flags=re.IGNORECASE)]
    on ASCII text, for a [term] made of word characters: [skip] counts
    the characters of a match still to be copied. *)
Fixpoint ascii_sub_bold_aux (term : str) (prev_word : bool) (skip : nat)
         (s : str) : str :=
  match s with
  | [] => []
  | c :: s' =>
      match skip with
      | S k =>
          c :: match k with 0 => lit "**" | _ => [] end
            ++ ascii_sub_bold_aux term (ascii_word c) k s'
      | 0 =>
          let n := length term in
          if negb prev_word && (0 <? n)
             && eqb (ascii_lower (firstn n s)) (ascii_lower term)
             && negb match nth_error s n with
                     | Some c' => ascii_word c'
                     | None => false
                     end
          then lit "**" ++ c :: match n with 1 => lit "**" | _ => [] end
                 ++ ascii_sub_bold_aux term (ascii_word c) (n - 1) s'
          else c :: ascii_sub_bold_aux term (ascii_word c) 0 s'
      end
  end.

Definition ascii_sub_bold (term s : str) : str :=
  ascii_sub_bold_aux term false 0 s.

End Py.

Abbreviation str := Py.str.

Declare Scope py_scope.
Delimit Scope py_scope with py.
Notation "'$' s" := (Py.lit s%string) (at level 1, format "'$' s") : py_scope.
Local Open Scope py_scope.

(** ** [os.path] (POSIX flavour) *)

Module OsPath.

Definition sep : Py.char := 47%N.
Definition dot : Py.char := 46%N.

(** [p.rfind(c) + 1]: the offset just after the last [c], 0 when absent. *)
Fixpoint after_last (c : Py.char) (p : str) : nat :=
  match p with
  | [] => 0
  | x :: p' =>
      match after_last c p' with
      | 0 => if N.eqb x c then 1 else 0
      | S k => S (S k)
      end
  end.

(** [os.path.basename] *)
Definition basename (p : str) : str := skipn (after_last sep p) p.

(** [os.path.splitext]: the extension starts at the last dot of the last
    component, unless that component has only leading dots before it. *)
Definition splitext (p : str) : str * str :=
  let base := basename p in
  let d := after_last dot base in
  match d with
  | 0 => (p, [])
  | S k =>
      if forallb (N.eqb dot) (firstn k base)
      then (p, [])
      else (firstn (length p - (length base - k)) p, skipn k base)
  end.

End OsPath.

(** ** Exceptions and logging

    A Python call either returns a value or raises; every call may also emit
    log records.  [try_except] is [try: body / except Exception: handler]. *)

Inductive exn : Type :=
| ValueError        (* unsupported extension, raised by [get_parser] *)
| OSError           (* a file that cannot be read or found *)
| EmptyIndexError   (* Whoosh: no index in the directory *)
| LibraryError.     (* any other exception of an extraction library *)

Inductive outcome (A : Type) : Type :=
| Returns (a : A)
| Raises (e : exn).

Arguments Returns {A} a.
Arguments Raises {A} e.

Inductive parser : Type := HWPParser | HWPXParser | PDFParser | ExcelParser.

Inductive log_record : Type :=
| ParserError (p : parser) (file_path : str)
| HWPXMemberError (name file_path : str)
| ParserSelectError (file_path : str)
| JobError (fpath : str) (e : exn)
| CancelRequested.

Definition M (A : Type) : Type := (outcome A * list log_record)%type.

Definition ret {A} (a : A) : M A := (Returns a, []).

Definition lift {A} (o : outcome A) : M A := (o, []).

Definition logger_error (r : log_record) : M unit := (Returns tt, [r]).

Definition bind {A B} (m : M A) (k : A -> M B) : M B :=
  match m with
  | (Returns a, l) => let (r, l') := k a in (r, l ++ l')
  | (Raises e, l) => (Raises e, l)
  end.

Definition try_except {A} (body : M A) (handler : exn -> M A) : M A :=
  match body with
  | (Returns a, l) => (Returns a, l)
  | (Raises e, l) => let (r, l') := handler e in (r, l ++ l')
  end.

Notation "x <- m ;; k" := (bind m (fun x => k))
  (at level 61, m at next level, right associativity).
Notation "m ;;; k" := (bind m (fun _ => k))
  (at level 61, right associativity).

(** ** The files on disk, as the extraction libraries see them *)

Record world : Type := {
  (** [subprocess.check_output(["hwp5txt", path], ...)] *)
  hwp5txt : str -> outcome str;
  (** [zipfile.ZipFile(path)]: the member names with, for each, the text
      [ET.parse] and [itertext] give, or the exception they raise *)
  hwpx_members : str -> outcome (list (str * outcome str));
  (** [fitz.open(path)]: [get_text()] of every page *)
  pdf_pages : str -> outcome (list str);
  (** [pd.ExcelFile(path)]: the sheet label and row lines, in order *)
  excel_lines : str -> outcome (list str);
  (** [datetime.fromtimestamp(os.path.getmtime(path))] *)
  getmtime : str -> outcome Z
}.

Definition newline : str := [10%N].

Section Extraction.

(** [str.lower] is Python's, full Unicode; the model is parametric in it. *)
Variable lower : str -> str.
Variable w : world.

Definition endswith (s suffix : str) : bool :=
  Py.startswith (rev s) (rev suffix).

(** The loop of [HWPXParser.parse] over [z.namelist()]. *)
Fixpoint hwpx_collect (file_path : str)
         (members : list (str * outcome str)) : M (list str) :=
  match members with
  | [] => ret []
  | (name, body) :: rest =>
      if Py.startswith name $"Contents/" && endswith (lower name) $".xml"
      then match body with
           | Returns text =>
               texts <- hwpx_collect file_path rest ;; ret (text :: texts)
           | Raises _ =>
               logger_error (HWPXMemberError name file_path) ;;;
               hwpx_collect file_path rest
           end
      else hwpx_collect file_path rest
  end.

(** [BaseFileParser.parse], one case per subclass. *)
Definition parse (p : parser) (file_path : str) : M str :=
  match p with
  | HWPParser =>
      try_except
        (output <- lift (hwp5txt w file_path) ;; ret (Py.strip output))
        (fun _ => logger_error (ParserError HWPParser file_path) ;;; ret [])
  | HWPXParser =>
      try_except
        (members <- lift (hwpx_members w file_path) ;;
         texts <- hwpx_collect file_path members ;;
         ret (Py.strip (Py.join newline texts)))
        (fun _ => logger_error (ParserError HWPXParser file_path) ;;; ret [])
  | PDFParser =>
      try_except
        (text_content <- lift (pdf_pages w file_path) ;;
         ret (Py.join newline text_content))
        (fun _ => logger_error (ParserError PDFParser file_path) ;;; ret [])
  | ExcelParser =>
      try_except
        (text_content <- lift (excel_lines w file_path) ;;
         ret (Py.join newline text_content))
        (fun _ => logger_error (ParserError ExcelParser file_path) ;;; ret [])
  end.

(** [ParserFactory.get_parser] *)
Definition get_parser (file_path : str) : outcome parser :=
  let ext := lower (snd (OsPath.splitext file_path)) in
  if Py.eqb ext $".hwp" then Returns HWPParser
  else if Py.eqb ext $".hwpx" then Returns HWPXParser
  else if Py.eqb ext $".pdf" then Returns PDFParser
  else if Py.eqb ext $".xls" || Py.eqb ext $".xlsx" then Returns ExcelParser
  else Raises ValueError.

(** [FileParser.parse_file] *)
Definition parse_file (file_path : str) : M str :=
  try_except
    (p <- lift (get_parser file_path) ;; parse p file_path)
    (fun _ => logger_error (ParserSelectError file_path) ;;; ret []).

(** The extraction itself, without the handlers of [parse_file] and of the
    parsers: what [get_parser] and the body of the chosen parser do. *)
Definition extraction (file_path : str) : outcome unit :=
  match get_parser file_path with
  | Raises e => Raises e
  | Returns HWPParser =>
      match hwp5txt w file_path with Returns _ => Returns tt | Raises e => Raises e end
  | Returns HWPXParser =>
      match hwpx_members w file_path with Returns _ => Returns tt | Raises e => Raises e end
  | Returns PDFParser =>
      match pdf_pages w file_path with Returns _ => Returns tt | Raises e => Raises e end
  | Returns ExcelParser =>
      match excel_lines w file_path with Returns _ => Returns tt | Raises e => Raises e end
  end.

End Extraction.

(** The text [HWPXParser] gathers from an archive: the texts, in archive
    order, of the members under [Contents/] named [*.xml] that parse. *)
Definition hwpx_texts (lower : str -> str) (members : list (str * outcome str))
  : list str :=
  flat_map
    (fun m =>
       if Py.startswith (fst m) $"Contents/" && endswith (lower (fst m)) $".xml"
       then match snd m with Returns text => [text] | Raises _ => [] end
       else [])
    members.

(** The records [HWPXParser] logs for an archive: one for each member under
    [Contents/] named [*.xml] that does not parse. *)
Definition hwpx_errors (lower : str -> str) (file_path : str)
           (members : list (str * outcome str)) : list log_record :=
  flat_map
    (fun m =>
       if Py.startswith (fst m) $"Contents/" && endswith (lower (fst m)) $".xml"
       then match snd m with
            | Returns _ => []
            | Raises _ => [HWPXMemberError (fst m) file_path]
            end
       else [])
    members.

(** ** The index store

    A stored document has the five fields of the schema.  The index is the
    list of its documents in document-number order.  It is changed through
    a writer: [path] is the unique field, so [update_document] deletes the
    committed documents of that path and adds the new one; the documents
    the same writer added before are out of its reach.  [commit] makes the
    result the index. *)

Record Doc : Type := {
  path : str;
  filename : str;
  extension : str;
  content : str;
  modified : Z
}.

Definition index : Type := list Doc.

Record IndexWriter : Type := {
  (** the documents of the committed index not deleted so far *)
  committed : index;
  (** the documents added through this writer, in order *)
  added : list Doc
}.

(** [self.ix.writer()] *)
Definition writer (ix : index) : IndexWriter :=
  {| committed := ix; added := [] |}.

(** [writer.update_document(path=..., ...)] *)
Definition update_document (wr : IndexWriter) (d : Doc) : IndexWriter :=
  {| committed :=
       filter (fun d' => negb (Py.eqb (path d') (path d))) (committed wr);
     added := added wr ++ [d] |}.

(** [writer.commit()] *)
Definition commit (wr : IndexWriter) : index := committed wr ++ added wr.

(** The directory of the index: absent, or present with the files it holds
    besides the index and, if one was created there, the index. *)
Inductive dir_state : Type :=
| Absent
| Present (files : list str) (stored : option index).

Definition empty_dir : dir_state := Present [] None.

Definition filesystem : Type := str -> dir_state.

Definition fs_set (fs : filesystem) (d : str) (s : dir_state) : filesystem :=
  fun d' => if Py.eqb d' d then s else fs d'.

(** [os.path.exists] *)
Definition exists_ (fs : filesystem) (d : str) : bool :=
  match fs d with Absent => false | Present _ _ => true end.

(** [os.makedirs] *)
Definition makedirs (fs : filesystem) (d : str) : M filesystem :=
  match fs d with
  | Absent => ret (fs_set fs d empty_dir)
  | Present _ _ => lift (Raises OSError)
  end.

(** [whoosh.index.create_in]: a new, empty index in an existing directory.
    Where an index has been before, it first deletes the old tables of
    contents, which may fail; [clear_index], the one caller on such a
    directory, decides that with [create_in_can_clear] before it calls
    this. *)
Definition create_in (fs : filesystem) (d : str) : M filesystem :=
  match fs d with
  | Absent => lift (Raises OSError)
  | Present files _ => ret (fs_set fs d (Present files (Some [])))
  end.

(** [whoosh.index.open_dir]: raises [EmptyIndexError] where no index is. *)
Definition open_dir (fs : filesystem) (d : str) : M index :=
  match fs d with
  | Absent => lift (Raises OSError)
  | Present _ None => lift (Raises EmptyIndexError)
  | Present _ (Some ix) => ret ix
  end.

Record IndexManager : Type := {
  index_dir : str;
  ix : index
}.

(** [IndexManager.__init__] *)
Definition IndexManager_init (fs : filesystem) (index_dir : str)
  : M (filesystem * IndexManager) :=
  fs1 <- (if negb (exists_ fs index_dir)
          then fs' <- makedirs fs index_dir ;; create_in fs' index_dir
          else ret fs) ;;
  ix <- open_dir fs1 index_dir ;;
  ret (fs1, {| index_dir := index_dir; ix := ix |}).

(** ** The ingestion pipeline *)

Inductive job_result : Type :=
| JobOk (d : Doc)
| JobErr (fpath : str) (err : exn).

Inductive event : Type :=
| Progress (current total : nat) (elapsed : Z)
| Logged (r : log_record).

Section Pipeline.

Variable lower : str -> str.
Variable w : world.

(** [parse_job], the function each worker runs; the tuple it returns is
    either five fields and [None], or the path and the exception. *)
Definition parse_job (fpath : str) : job_result * list log_record :=
  let job :=
    (let extension := lower (snd (OsPath.splitext fpath)) in
     let filename := OsPath.basename fpath in
     content <- parse_file lower w fpath ;;
     modified <- lift (getmtime w fpath) ;;
     ret {| path := fpath; filename := filename; extension := extension;
            content := content; modified := modified |}) in
  match job with
  | (Returns d, l) => (JobOk d, l)
  | (Raises e, l) => (JobErr fpath e, l)
  end.

(** Whether a progress callback was passed; its calls are recorded in the
    trace.  Neither callback raises. *)
Variable progress_callback : bool.
(** The cancel callback, if any: what its [i]-th poll answers. *)
Variable cancel_callback : option (nat -> bool).
(** [time.time()]: [clock 0] at the start, [clock i] in iteration [i]. *)
Variable clock : nat -> Z.

Definition call_progress (i total : nat) (elapsed : Z) : list event :=
  if progress_callback then [Progress i total elapsed] else [].

Definition cancelled (i : nat) : bool :=
  match cancel_callback with
  | Some poll => poll i
  | None => false
  end.

(** The loop over [as_completed]: [futures] are the jobs in the order in
    which they finish, [i] counts from 1. *)
Fixpoint monitor (total_files i : nat) (futures : list job_result)
         (results : list Doc) (trace : list event)
  : list Doc * list event :=
  match futures with
  | [] => (results, trace)
  | future :: rest =>
      if cancelled i
      then (results, trace ++ [Logged CancelRequested])
      else
        match future with
        | JobErr fpath err =>
            let trace := trace ++ [Logged (JobError fpath err)]
                               ++ call_progress i total_files 0 in
            (* [continue] leaves the [try] through its [finally] *)
            let trace :=
              trace ++ call_progress i total_files (clock i - clock 0) in
            monitor total_files (S i) rest results trace
        | JobOk d =>
            let results := results ++ [d] in
            let trace :=
              trace ++ call_progress i total_files (clock i - clock 0) in
            monitor total_files (S i) rest results trace
        end
  end.

(** [IndexManager.index_files].  [completion] is the order in which the
    pool finishes the submitted jobs, whatever [max_workers] is; the pool
    is joined when the [with] block is left, then the gathered results are
    written and committed.  The closing log line with the durations is
    left out. *)
Definition index_files (ix : index) (file_paths completion : list str)
  : index * list event :=
  let total_files := length file_paths in
  let futures := map (fun f => fst (parse_job f)) completion in
  let '(results, trace) := monitor total_files 1 futures [] [] in
  (commit (fold_left update_document results (writer ix)), trace).

(** The jobs the pool has run when [index_files] returns: all of them. *)
Definition jobs_run (file_paths : list str) : list job_result :=
  map (fun f => fst (parse_job f)) file_paths.

End Pipeline.

(** ** The query engine

    Whoosh is a library: its analyzers and its scoring are parameters here.
    What [search] fixes itself is modelled: the two fields of the
    multi-field parser, the group, the sort key and [limit=50]. *)

Inductive field : Type := Filename | Content.

Definition field_value (f : field) (d : Doc) : str :=
  match f with Filename => filename d | Content => content d end.

#[warnings="-register-all"]
Inductive query : Type :=
| Term (f : field) (text : str)
| And (subqueries : list query)
| Or (subqueries : list query).

(** Stable insertion sort, largest key first. *)
Fixpoint insert_desc (key : Doc -> Z) (d : Doc) (l : list Doc) : list Doc :=
  match l with
  | [] => [d]
  | x :: l' => if (key d <? key x)%Z then x :: insert_desc key d l' else d :: l
  end.

Definition sort_desc (key : Doc -> Z) (l : list Doc) : list Doc :=
  fold_right (insert_desc key) [] l.

Section Search.

(** Whether the analysed word occurs among the terms indexed for the text
    of the field. *)
Variable term_matches : field -> str -> str -> bool.
(** The relevance score of a document for a query over an index. *)
Variable score : index -> query -> Doc -> Z.

(** [MultifieldParser(["filename", "content"], group=...).parse], on a
    query string of plain words: each word may match in either field. *)
Definition parse_query (and_mode : bool) (query_str : str) : query :=
  let group := if and_mode then And else Or in
  group (map (fun word => Or [Term Filename word; Term Content word])
             (Py.split_ws query_str)).

(** A compound query without subqueries matches nothing. *)
Fixpoint matches (q : query) (d : Doc) : bool :=
  match q with
  | Term f text => term_matches f text (field_value f d)
  | And qs =>
      match qs with
      | [] => false
      | _ => forallb (fun q' => matches q' d) qs
      end
  | Or qs => existsb (fun q' => matches q' d) qs
  end.

(** [searcher.search(query, limit, sortedby, reverse)] *)
Definition searcher_search (ix : index) (q : query) (limit : nat)
           (sortedby_modified : bool) : list Doc :=
  let found := filter (matches q) ix in
  let key := if sortedby_modified then modified else score ix q in
  firstn limit (sort_desc key found).

(** [IndexManager.search]; a hit copies the five stored fields. *)
Definition search (ix : index) (query_str : str) (and_mode : bool)
           (sort_by : str) : list Doc :=
  let query := parse_query and_mode query_str in
  let results :=
    if Py.eqb sort_by $"date"
    then searcher_search ix query 50 true
    else searcher_search ix query 50 false in
  map (fun r => {| path := path r; filename := filename r;
                   extension := extension r; content := content r;
                   modified := modified r |}) results.

End Search.

(** ** The search box of the application *)

(** "검색어를 입력하세요" *)
Definition placeholder_query : str :=
  [44160; 49353; 50612; 47484; 32; 51077; 47141; 54616; 49464; 50836]%N.

(** "먼저 검색폴더를 추가해주세요" *)
Definition placeholder_folder : str :=
  [47676; 51200; 32; 44160; 49353; 54260; 45908; 47484; 32; 52628; 44032;
   54644; 51452; 49464; 50836]%N.

(** "날짜순" *)
Definition sort_by_date_label : str := [45216; 51676; 49692]%N.

Record OptimizedApp : Type := {
  search_var : str;
  mode_var : str;
  sort_var : str;
  filter_hwp : bool;
  filter_hwpx : bool;
  filter_pdf : bool;
  filter_excel : bool;
  current_results : list Doc
}.

Section OnSearch.

(** [self.idx_manager.search] *)
Variable idx_manager_search : str -> bool -> str -> list Doc.

(** The body of the filter loop: [true] where the loop [continue]s. *)
Definition skipped (self : OptimizedApp) (r : Doc) : bool :=
  let ext := extension r in
  if Py.eqb ext $".hwp" && negb (filter_hwp self) then true
  else if Py.eqb ext $".hwpx" && negb (filter_hwpx self) then true
  else if Py.eqb ext $".pdf" && negb (filter_pdf self) then true
  else if (Py.eqb ext $".xls" || Py.eqb ext $".xlsx")
          && negb (filter_excel self) then true
  else false.

Fixpoint filter_loop (self : OptimizedApp) (results filtered : list Doc)
  : list Doc :=
  match results with
  | [] => filtered
  | r :: rest =>
      if skipped self r then filter_loop self rest filtered
      else filter_loop self rest (filtered ++ [r])
  end.

(** [OptimizedApp.on_search]: the new state and the list handed to
    [_update_result_list], or [None] when only the guide is shown. *)
Definition on_search (self : OptimizedApp)
  : OptimizedApp * option (list Doc) :=
  let query := Py.strip (search_var self) in
  if negb (Py.truthy query)
     || Py.eqb query placeholder_query || Py.eqb query placeholder_folder
  then (self, None)
  else
    let and_mode := Py.eqb (mode_var self) $"AND" in
    let sort_by :=
      if Py.eqb (sort_var self) sort_by_date_label
      then $"date" else $"relevance" in
    let results := idx_manager_search query and_mode sort_by in
    let filtered := filter_loop self results [] in
    ({| search_var := search_var self; mode_var := mode_var self;
        sort_var := sort_var self; filter_hwp := filter_hwp self;
        filter_hwpx := filter_hwpx self; filter_pdf := filter_pdf self;
        filter_excel := filter_excel self;
        current_results := filtered |}, Some filtered).

End OnSearch.

(** ** The snippet generator *)

(** "→ " *)
Definition arrow : str := [8594; 32]%N.

(** "→ [내용 미리보기 없음]" *)
Definition no_preview : str :=
  [8594; 32; 91; 45236; 50857; 32; 48120; 47532; 48372; 44592; 32; 50630;
   51020; 93]%N.

Section Snippet.

Variable lower : str -> str.
(** The class [\w] of the [re] module. *)
Variable is_word : Py.char -> bool.
(** [re.sub(rf'\b({re.escape(term)})\b', r'**\1**', s, flags=re.IGNORECASE)] *)
Variable re_sub_bold : str -> str -> str.

(** [re.findall(r"\b\w+\b", s)]: the maximal runs of word characters. *)
Fixpoint findall_words_aux (acc : str) (s : str) : list str :=
  match s with
  | [] => match acc with [] => [] | _ => [rev acc] end
  | c :: s' =>
      if is_word c then findall_words_aux (c :: acc) s'
      else match acc with
           | [] => findall_words_aux [] s'
           | _ => rev acc :: findall_words_aux [] s'
           end
  end.

Definition findall_words (s : str) : list str := findall_words_aux [] s.

(** The [for line in lines] loop: the first line with a query term,
    stripped; [None] when the loop ends without [break]. *)
Fixpoint first_matching_line (query_terms lines : list str) : option str :=
  match lines with
  | [] => None
  | line :: rest =>
      if existsb (fun term => Py.contains (lower line) term) query_terms
      then Some (Py.strip line)
      else first_matching_line query_terms rest
  end.

(** [snippet_line[:100] + "..." if len(snippet_line) > 100 else snippet_line] *)
Definition truncate (snippet_line : str) : str :=
  if 100 <? length snippet_line
  then Py.slice_to 100 snippet_line ++ $"..."
  else snippet_line.

(** The snippet before the highlight markers are added, when the first
    [return] is the one taken. *)
Definition snippet_text (content query : str) : option str :=
  let lines := Py.split 10%N content in
  let query_terms := findall_words (lower query) in
  match first_matching_line query_terms lines with
  | Some snippet_line =>
      if Py.truthy snippet_line then Some (truncate snippet_line) else None
  | None => None
  end.

(** [OptimizedApp._generate_snippet] *)
Definition _generate_snippet (content query : str) : str :=
  let lines := Py.split 10%N content in
  let query_terms := findall_words (lower query) in
  let snippet_line := first_matching_line query_terms lines in
  let fall_through :=
    match lines with
    | [] => []
    | _ => no_preview
    end in
  match snippet_line with
  | Some snippet_line =>
      if Py.truthy snippet_line
      then
        let snippet := truncate snippet_line in
        let snippet :=
          fold_left (fun snippet term => re_sub_bold term snippet)
                    query_terms snippet in
        arrow ++ snippet
      else fall_through
  | None => fall_through
  end.

End Snippet.

(** ** Reading a run of the pipeline *)

(** The documents of the jobs that returned without an exception. *)
Fixpoint successes (futures : list job_result) : list Doc :=
  match futures with
  | [] => []
  | JobOk d :: rest => d :: successes rest
  | JobErr _ _ :: rest => successes rest
  end.

(** How many completions the loop handles before a poll answers true. *)
Fixpoint observed (cancel_callback : option (nat -> bool)) (i : nat)
         (futures : list job_result) : nat :=
  match futures with
  | [] => 0
  | _ :: rest =>
      if cancelled cancel_callback i then 0
      else S (observed cancel_callback (S i) rest)
  end.

Definition is_progress (ev : event) : bool :=
  match ev with Progress _ _ _ => true | Logged _ => false end.

(** ** Sample files, corpus and analyzer *)

(** Every [.hwp] is unreadable, [/docs/broken.pdf] and [/docs/gone.pdf]
    cannot be opened, and [/docs/gone.pdf] has no modification time. *)
Definition sample_world : world := {|
  hwp5txt := fun _ => Raises LibraryError;
  hwpx_members := fun _ =>
    Returns [($"Contents/section0.xml", Returns $"alpha");
             ($"Contents/section1.xml", Raises LibraryError);
             ($"META-INF/manifest.xml", Returns $"ignored")];
  pdf_pages := fun p =>
    if Py.eqb p $"/docs/broken.pdf" || Py.eqb p $"/docs/gone.pdf"
    then Raises LibraryError else Returns [$"alpha beta"];
  excel_lines := fun _ => Returns [$"[Sheet: S1]"; $"1 2"];
  getmtime := fun p =>
    if Py.eqb p $"/docs/gone.pdf" then Raises OSError
    else Returns 1700000000%Z
|}.

(** A poll that answers true from the second call on. *)
Definition cancel_after_one (i : nat) : bool := 1 <? i.

(** An analyzer that indexes the white-space separated words of a text. *)
Definition word_analyzer (f : field) (word text : str) : bool :=
  existsb (Py.eqb word) (Py.split_ws text).

Definition flat_score (ix : index) (q : query) (d : Doc) : Z := 0%Z.

(** [/docs/x.pdf], [/docs/xx.pdf], ...: documents with the word "alpha"
    only, the longer the name the more recent. *)
Definition recent (n : nat) : Doc := {|
  path := $"/docs/" ++ repeat 120%N n ++ $".pdf";
  filename := repeat 120%N n ++ $".pdf";
  extension := $".pdf";
  content := $"alpha";
  modified := Z.of_nat (100 + n)
|}.

(** The oldest document, the only one with both words. *)
Definition oldest : Doc := {|
  path := $"/docs/both.hwp";
  filename := $"both.hwp";
  extension := $".hwp";
  content := $"alpha beta";
  modified := 0%Z
|}.

(** 52 documents: [oldest] and 51 more recent ones. *)
Definition sample_corpus : index := oldest :: map recent (seq 1 51).

Definition three_pdfs : list str :=
  [$"/docs/a.pdf"; $"/docs/b.pdf"; $"/docs/c.pdf"].

(** A clock that advances by one unit per reading. *)
Definition ticking (i : nat) : Z := Z.of_nat i.

(** A file system on which no directory exists yet. *)
Definition no_dirs : filesystem := fun _ => Absent.

(** Three of these documents. *)
Definition small_corpus : index := [oldest; recent 1; recent 2].

(** The search box holds "alpha beta", mode OR, sorted by date, and the PDF
    check box is cleared. *)
Definition sample_app : OptimizedApp := {|
  search_var := $" alpha beta ";
  mode_var := $"OR";
  sort_var := sort_by_date_label;
  filter_hwp := true;
  filter_hwpx := true;
  filter_pdf := false;
  filter_excel := true;
  current_results := []
|}.


(** ** File discovery *)

(** [os.path.join(a, b)] *)
Definition os_path_join (a b : str) : str :=
  if Py.startswith b [OsPath.sep] then b
  else if negb (Py.truthy a) || endswith a [OsPath.sep] then a ++ b
  else a ++ [OsPath.sep] ++ b.

(** [x in l] on a list of strings *)
Definition str_in (x : str) (l : list str) : bool := existsb (Py.eqb x) l.

(** The list [exts] of [_collect_files] *)
Definition exts : list str := [$".hwp"; $".hwpx"; $".pdf"; $".xls"; $".xlsx"].

Section Discovery.

Variable lower : str -> str.
(** [os.walk(d)]: every directory under [d], [d] first, with the names of
    the files it holds; nothing when [d] is no directory. *)
Variable os_walk : str -> list (str * list str).

(** [OptimizedApp._collect_files] *)
Definition _collect_files (monitor_dirs : list str) : list str :=
  flat_map
    (fun d =>
       flat_map
         (fun '(root, files_in_dir) =>
            map (os_path_join root)
                (filter (fun f => str_in (lower (snd (OsPath.splitext f))) exts)
                        files_in_dir))
         (os_walk d))
    monitor_dirs.

End Discovery.

(** ** Icons *)

Definition icon_document : str := [128196]%N.
Definition icon_pdf : str := [128209]%N.
Definition icon_sheet : str := [128202]%N.
Definition icon_other : str := [128450; 65039]%N.

(** [OptimizedApp._get_icon] *)
Definition _get_icon (extension : str) : str :=
  if Py.eqb extension $".hwp" || Py.eqb extension $".hwpx" then icon_document
  else if Py.eqb extension $".pdf" then icon_pdf
  else if Py.eqb extension $".xls" || Py.eqb extension $".xlsx" then icon_sheet
  else icon_other.

(** ** The folder list and the search entry

    The part of the application state the settings window and the entry
    handlers work on.  The entry is bound to [search_var], so its text is
    the query of [on_search]. *)

Record FolderState : Type := {
  monitor_dirs : list str;
  (** the rows of the list box of the settings window *)
  dir_list : list str;
  search_entry : str;
  search_entry_foreground : str
}.

Inductive dialog : Type :=
| WarnMaxFolders
| WarnSelectFolder
| InfoRemoved (removed_folder : str).

(** [COLORS['text_primary']] *)
Definition text_primary : str := $"#333333".

(** Truthiness of a list. *)
Definition nonempty {A} (l : list A) : bool :=
  match l with [] => false | _ => true end.

(** The state [__init__] and [_setup_ui] leave: no folder, the entry gray
    and asking for a folder.  The list box exists only once
    [open_settings] has run; until then it is taken as empty. *)
Definition initial_folders : FolderState := {|
  monitor_dirs := [];
  dir_list := [];
  search_entry := placeholder_folder;
  search_entry_foreground := $"gray"
|}.

(** [open_settings] fills a new list box from [monitor_dirs]. *)
Definition open_settings (self : FolderState) : FolderState := {|
  monitor_dirs := monitor_dirs self;
  dir_list := monitor_dirs self;
  search_entry := search_entry self;
  search_entry_foreground := search_entry_foreground self
|}.

(** [OptimizedApp._add_folder]; [folder] is what the directory dialog
    answers, the empty string when it is dismissed. *)
Definition _add_folder (self : FolderState) (folder : str)
  : FolderState * option dialog :=
  if 5 <=? length (monitor_dirs self) then (self, Some WarnMaxFolders)
  else if Py.truthy folder && negb (str_in folder (monitor_dirs self))
  then
    let monitor_dirs' := monitor_dirs self ++ [folder] in
    let dir_list' := dir_list self ++ [folder] in
    if nonempty monitor_dirs' && Py.eqb (search_entry self) placeholder_folder
    then ({| monitor_dirs := monitor_dirs'; dir_list := dir_list';
             search_entry := placeholder_query;
             search_entry_foreground := text_primary |}, None)
    else ({| monitor_dirs := monitor_dirs'; dir_list := dir_list';
             search_entry := search_entry self;
             search_entry_foreground := search_entry_foreground self |}, None)
  else (self, None).

(** [l.pop(idx)] and [Listbox.delete(idx)]: the list without position
    [idx]. *)
Definition remove_at {A} (idx : nat) (l : list A) : list A :=
  firstn idx l ++ skipn (S idx) l.

(** [OptimizedApp._remove_folder]; [sel] is [curselection()].  [None] is
    the [IndexError] of [pop], raised before anything is changed. *)
Definition _remove_folder (self : FolderState) (sel : list nat)
  : option (FolderState * option dialog) :=
  match sel with
  | [] => Some (self, Some WarnSelectFolder)
  | idx :: _ =>
      match nth_error (monitor_dirs self) idx with
      | None => None
      | Some removed_folder =>
          let monitor_dirs' := remove_at idx (monitor_dirs self) in
          let dir_list' := remove_at idx (dir_list self) in
          if negb (nonempty monitor_dirs')
          then Some ({| monitor_dirs := monitor_dirs'; dir_list := dir_list';
                        search_entry := placeholder_folder;
                        search_entry_foreground := $"gray" |},
                     Some (InfoRemoved removed_folder))
          else Some ({| monitor_dirs := monitor_dirs'; dir_list := dir_list';
                        search_entry := search_entry self;
                        search_entry_foreground := search_entry_foreground self |},
                     Some (InfoRemoved removed_folder))
      end
  end.

(** [OptimizedApp._clear_placeholder], on focus-in *)
Definition _clear_placeholder (self : FolderState) : FolderState :=
  let current := search_entry self in
  if str_in current [placeholder_query; placeholder_folder]
  then {| monitor_dirs := monitor_dirs self; dir_list := dir_list self;
          search_entry := []; search_entry_foreground := text_primary |}
  else self.

(** [OptimizedApp._add_placeholder], on focus-out *)
Definition _add_placeholder (self : FolderState) : FolderState :=
  if negb (Py.truthy (search_entry self))
  then {| monitor_dirs := monitor_dirs self; dir_list := dir_list self;
          search_entry := if negb (nonempty (monitor_dirs self))
                          then placeholder_folder else placeholder_query;
          search_entry_foreground := $"gray" |}
  else self.

(** What the user does to this part of the state. *)
Inductive ui_event : Type :=
| OpenSettings
| AddFolder (folder : str)
| RemoveFolder (sel : list nat)
| FocusIn
| FocusOut
| Typed (text : str).

(** One callback; a callback that raises leaves the state as it was. *)
Definition handle (self : FolderState) (ev : ui_event) : FolderState :=
  match ev with
  | OpenSettings => open_settings self
  | AddFolder folder => fst (_add_folder self folder)
  | RemoveFolder sel =>
      match _remove_folder self sel with
      | Some (self', _) => self'
      | None => self
      end
  | FocusIn => _clear_placeholder self
  | FocusOut => _add_placeholder self
  | Typed text => {| monitor_dirs := monitor_dirs self;
                     dir_list := dir_list self;
                     search_entry := text;
                     search_entry_foreground := search_entry_foreground self |}
  end.

(** ** Clearing the index *)

Inductive removal_warning : Type :=
| CouldNotRemove (filepath : str)
| RetryFailed (filepath : str).

Section ClearIndex.

(** [os.remove(filepath)]: whether the attempt of that number succeeds.
    The loop of [clear_index] makes the first and the second, [create_in]
    makes a third. *)
Variable os_remove : str -> nat -> bool.
(** The names of the files in which Whoosh keeps a stored index. *)
Variable index_entries : index -> list str.
(** Whether [create_in] deletes a file of that name before it writes the
    new table of contents (Whoosh: the names starting with [_MAIN_]). *)
Variable cleared_by_create_in : str -> bool.

(** [os.listdir(index_dir)]: the files of the index are entries as well. *)
Definition listing (files : list str) (stored : option index) : list str :=
  files ++ match stored with
           | Some ix => index_entries ix
           | None => []
           end.

(** The loop of [clear_index] over [os.listdir]: the names left in the
    directory and the warnings logged. *)
Fixpoint remove_files (index_dir : str) (names : list str)
  : list str * list removal_warning :=
  match names with
  | [] => ([], [])
  | f :: rest =>
      let filepath := os_path_join index_dir f in
      let '(kept, warnings) := remove_files index_dir rest in
      if os_remove filepath 1 then (kept, warnings)
      else if os_remove filepath 2
           then (kept, CouldNotRemove filepath :: warnings)
           else (f :: kept,
                 CouldNotRemove filepath :: RetryFailed filepath :: warnings)
  end.

(** Whether [create_in] can delete what it has to, among the names the
    loop left in the directory. *)
Definition create_in_can_clear (index_dir : str) (kept : list str) : bool :=
  forallb (fun f => os_remove (os_path_join index_dir f) 3)
          (filter cleared_by_create_in kept).

(** [IndexManager.clear_index].  The loop runs over every entry of the
    directory.  [create_in] then deletes the old tables of contents that
    are left, and raises when one cannot be deleted; the other names left
    stay in the directory beside the new, empty index. *)
Definition clear_index (fs : filesystem) (self : IndexManager)
  : outcome (filesystem * IndexManager) * list removal_warning :=
  match fs (index_dir self) with
  | Absent => (Raises OSError, [])
  | Present files stored =>
      let '(kept, warnings) :=
        remove_files (index_dir self) (listing files stored) in
      if create_in_can_clear (index_dir self) kept
      then
        let fs1 :=
          fs_set fs (index_dir self)
                 (Present (filter (fun f => negb (cleared_by_create_in f)) kept)
                          None) in
        (fst (fs2 <- create_in fs1 (index_dir self) ;;
              ix <- open_dir fs2 (index_dir self) ;;
              ret (fs2, {| index_dir := index_dir self; ix := ix |})),
         warnings)
      else (Raises OSError, warnings)
  end.

End ClearIndex.

(** ** Reindexing

    The indexing flag, the status line and the buttons of the application.
    [index_cancelled] is written by the main thread while the worker
    thread reads it, so it is not a field here: what the worker reads is
    given with the run. *)

Inductive status : Type :=
| StatusReady              (* "준비" *)
| StatusCancelRequested    (* "색인 중단 요청 중..." *)
| StatusClearing           (* "색인 초기화 중..." *)
| StatusNoFiles            (* "색인할 파일이 없습니다." *)
| StatusCancelled          (* "색인 중단됨" *)
| StatusDone (total : nat) (elapsed_time : Z).
                           (* "색인 완료 ({total}개, {elapsed_time:.2f}초 소요)" *)

Inductive button_label : Type :=
| LabelReindex             (* "🔄 색인" *)
| LabelStop.               (* "⏹ 색인 중단" *)

Record Indexing : Type := {
  is_indexing : bool;
  status_var : status;
  progress_var : Z;
  last_index_time : option Z;
  reindex_button : button_label;
  settings_button_enabled : bool;
  search_button_enabled : bool
}.

Inductive reindex_action : Type :=
| RequestCancel            (* [self.index_cancelled = True] *)
| WarnNoFolders
| StartThread.

(** [OptimizedApp.reindex_files], up to the start of the thread *)
Definition reindex_files (self : Indexing) (monitor_dirs : list str)
  : Indexing * reindex_action :=
  if is_indexing self
  then ({| is_indexing := is_indexing self;
           status_var := StatusCancelRequested;
           progress_var := progress_var self;
           last_index_time := last_index_time self;
           reindex_button := reindex_button self;
           settings_button_enabled := settings_button_enabled self;
           search_button_enabled := search_button_enabled self |},
        RequestCancel)
  else if negb (nonempty monitor_dirs) then (self, WarnNoFolders)
  else (self, StartThread).

(** [writer.commit()] also writes the index to its directory. *)
Definition persist (fs : filesystem) (index_dir : str) (ix : index)
  : filesystem :=
  match fs index_dir with
  | Absent => fs
  | Present files _ => fs_set fs index_dir (Present files (Some ix))
  end.

Section Reindex.

Variable lower : str -> str.
Variable w : world.
Variable os_walk : str -> list (str * list str).
Variable os_remove : str -> nat -> bool.
Variable index_entries : index -> list str.
Variable cleared_by_create_in : str -> bool.
(** The order in which the pool finishes the jobs of the files submitted. *)
Variable schedule : list str -> list str.
Variable clock : nat -> Z.
(** [time.time()] before and after [index_files], [datetime.now()] *)
Variables start_time end_time now : Z.
(** [self.index_cancelled] as the [i]-th poll and the test after the run
    read it. *)
Variable cancel_requested : nat -> bool.
Variable cancelled_at_end : bool.

(** [thread_target], the body of the worker thread of [reindex_files]:
    the store it leaves when it returns, and the state of the application
    it leaves in any case.  What the progress callback writes to the
    status line and the progress bar is overwritten before the thread ends
    and is left out. *)
Definition thread_target (self : Indexing) (fs : filesystem)
           (idx_manager : IndexManager) (monitor_dirs : list str)
  : outcome (filesystem * IndexManager) * Indexing :=
  let self :=
    {| is_indexing := true;
       status_var := StatusClearing;
       progress_var := 0;
       last_index_time := last_index_time self;
       reindex_button := LabelStop;
       settings_button_enabled := false;
       search_button_enabled := false |} in
  match fst (clear_index os_remove index_entries cleared_by_create_in
                         fs idx_manager) with
  | Raises e => (Raises e, self)
  | Returns (fs, idx_manager) =>
      let files := _collect_files lower os_walk monitor_dirs in
      let total := length files in
      if total =? 0
      then (Returns (fs, idx_manager),
            {| is_indexing := false;
               status_var := StatusNoFiles;
               progress_var := progress_var self;
               last_index_time := last_index_time self;
               reindex_button := LabelReindex;
               settings_button_enabled := true;
               search_button_enabled := true |})
      else
        let ix' :=
          fst (index_files lower w true (Some cancel_requested) clock
                           (ix idx_manager) files (schedule files)) in
        let elapsed_time := (end_time - start_time)%Z in
        (Returns (persist fs (index_dir idx_manager) ix',
                  {| index_dir := index_dir idx_manager; ix := ix' |}),
         {| is_indexing := false;
            status_var := if cancelled_at_end then StatusCancelled
                          else StatusDone total elapsed_time;
            progress_var := 100;
            last_index_time := if cancelled_at_end then last_index_time self
                               else Some now;
            reindex_button := LabelReindex;
            settings_button_enabled := true;
            search_button_enabled := true |})
  end.

End Reindex.

(** A pool that finishes the jobs in the reverse of the order submitted. *)
Definition last_first (files : list str) : list str := rev files.

Definition never (i : nat) : bool := false.

(** The application at rest. *)
Definition idle : Indexing := {|
  is_indexing := false;
  status_var := StatusReady;
  progress_var := 0;
  last_index_time := None;
  reindex_button := LabelReindex;
  settings_button_enabled := true;
  search_button_enabled := true
|}.

(** ** More sample inputs *)

(** Two folders, one inside the other, and the files under them. *)
Definition sample_walk (d : str) : list (str * list str) :=
  if Py.eqb d $"/docs"
  then [($"/docs", [$"a.pdf"; $"notes.txt"; $"b.HWP"]);
        ($"/docs/old", [$"c.xlsx"])]
  else if Py.eqb d $"/docs/old"
  then [($"/docs/old", [$"c.xlsx"])]
  else [].

(** A directory with an index of three documents and two other files. *)
Definition used_fs : filesystem :=
  fun d => if Py.eqb d $"indexdir"
           then Present [$"notes.tmp"; $"stale.lock"] (Some small_corpus)
           else Absent.

(** Every removal succeeds but that of [indexdir/stale.lock]. *)
Definition removable (filepath : str) (attempt : nat) : bool :=
  negb (Py.eqb filepath $"indexdir/stale.lock").

(** No removal succeeds, at any attempt. *)
Definition all_locked (filepath : str) (attempt : nat) : bool := false.

(** An index kept in a table of contents and one segment file. *)
Definition sample_entries (ix : index) : list str :=
  [$"_MAIN_1.toc"; $"MAIN_seg.seg"].

(** The names [create_in] deletes first. *)
Definition toc_name (f : str) : bool := Py.startswith f $"_MAIN_".

(** * Properties *)

(** ** Strings *)

Lemma eqb_refl (a : str) : Py.eqb a a = true.
Proof.
  induction a as [|x a IH]; simpl; [reflexivity|].
  now rewrite N.eqb_refl.
Qed.

Lemma eqb_eq (a b : str) : Py.eqb a b = true <-> a = b.
Proof.
  split; [|intros ->; apply eqb_refl].
  revert b; induction a as [|x a IH]; intros [|y b]; simpl; try discriminate; auto.
  intros H; apply andb_true_iff in H as [Hx Hab].
  apply N.eqb_eq in Hx; subst; f_equal; auto.
Qed.

Lemma eqb_neq (a b : str) : Py.eqb a b = false <-> a <> b.
Proof.
  split.
  - intros H Heq; apply eqb_eq in Heq; congruence.
  - intros H; destruct (Py.eqb a b) eqn:E; [apply eqb_eq in E; contradiction|reflexivity].
Qed.

Lemma split_not_nil (sep : Py.char) (s : str) : Py.split sep s <> [].
Proof.
  destruct s as [|c s]; simpl; [discriminate|].
  destruct (N.eqb c sep); [discriminate|].
  destruct (Py.split sep s); discriminate.
Qed.

Lemma startswith_app (p s : str) : Py.startswith (p ++ s) p = true.
Proof.
  induction p as [|x p IH]; simpl; [reflexivity|].
  now rewrite N.eqb_refl.
Qed.

(** ** The snippet generator *)

Section SnippetFacts.

Variable lower : str -> str.
Variable is_word : Py.char -> bool.
Variable re_sub_bold : str -> str -> str.

Lemma truncate_length (snippet_line : str) :
  length (truncate snippet_line) <= 103.
Proof.
  unfold truncate, Py.slice_to.
  destruct (100 <? length snippet_line) eqn:E.
  - rewrite length_app, length_firstn.
    change (length $"...") with 3; lia.
  - apply Nat.ltb_ge in E; lia.
Qed.

Lemma truncate_long (snippet_line : str) :
  100 < length snippet_line ->
  truncate snippet_line = firstn 100 snippet_line ++ $"...".
Proof.
  intros H; unfold truncate, Py.slice_to.
  apply Nat.ltb_lt in H; now rewrite H.
Qed.

Lemma truncate_short (snippet_line : str) :
  length snippet_line <= 100 -> truncate snippet_line = snippet_line.
Proof.
  intros H; unfold truncate.
  apply Nat.ltb_ge in H; now rewrite H.
Qed.

(** The value returned is the arrow, then the highlighted snippet text,
    whenever there is a snippet text; the placeholder otherwise. *)
Lemma generate_snippet_cases (content query : str) :
  _generate_snippet lower is_word re_sub_bold content query =
  match snippet_text lower is_word content query with
  | Some snippet =>
      arrow ++ fold_left (fun snippet term => re_sub_bold term snippet)
                         (findall_words is_word (lower query)) snippet
  | None => no_preview
  end.
Proof.
  unfold _generate_snippet, snippet_text.
  pose proof (split_not_nil 10%N content) as Hne.
  destruct (Py.split 10%N content) as [|l ls] eqn:El; [contradiction|].
  destruct (first_matching_line lower _ (l :: ls)) as [sl|]; [|reflexivity].
  destruct (Py.truthy sl); reflexivity.
Qed.

Lemma first_matching_line_none (query_terms lines : list str) :
  (forall line term, In line lines -> In term query_terms ->
                     Py.contains (lower line) term = false) ->
  first_matching_line lower query_terms lines = None.
Proof.
  induction lines as [|line rest IH]; intros H; simpl; [reflexivity|].
  destruct (existsb _ query_terms) eqn:E.
  - apply existsb_exists in E as (term & Hin & Hc).
    rewrite (H line term) in Hc; [discriminate|now left|assumption].
  - apply IH; intros; apply H; [now right|assumption].
Qed.

End SnippetFacts.

(** C5: the snippet text, before the highlight markers are added, has at
    most 103 characters: a (stripped) matching line of more than 100
    characters is cut to its first 100 characters followed by "...", a
    shorter one is kept whole; the returned preview is the arrow followed
    by that text with the markers substituted in. *)
Theorem snippet_bound
  (lower : str -> str) (is_word : Py.char -> bool)
  (re_sub_bold : str -> str -> str) (content query snippet : str) :
  snippet_text lower is_word content query = Some snippet ->
  length snippet <= 103 /\
  (exists snippet_line,
      first_matching_line lower (findall_words is_word (lower query))
                          (Py.split 10%N content) = Some snippet_line /\
      (100 < length snippet_line ->
       snippet = firstn 100 snippet_line ++ $"...") /\
      (length snippet_line <= 100 -> snippet = snippet_line)) /\
  _generate_snippet lower is_word re_sub_bold content query =
  arrow ++ fold_left (fun s term => re_sub_bold term s)
                     (findall_words is_word (lower query)) snippet.
Proof.
  intros H.
  pose proof (generate_snippet_cases lower is_word re_sub_bold content query) as G.
  rewrite H in G.
  unfold snippet_text in H.
  destruct (first_matching_line lower _ _) as [sl|] eqn:E; [|discriminate].
  destruct (Py.truthy sl); [|discriminate].
  injection H as <-.
  split; [apply truncate_length|].
  split; [|exact G].
  exists sl; split; [reflexivity|].
  split; [apply truncate_long|apply truncate_short].
Qed.

(** C10: splitting on newlines never gives the empty list, so the branch
    returning the empty string is dead: when no line contains a query term
    the placeholder is returned, and every preview is non-empty and begins
    with the arrow. *)
Theorem snippet_never_empty
  (lower : str -> str) (is_word : Py.char -> bool)
  (re_sub_bold : str -> str -> str) (content query : str) :
  Py.split 10%N content <> [] /\
  ((forall line term,
       In line (Py.split 10%N content) ->
       In term (findall_words is_word (lower query)) ->
       Py.contains (lower line) term = false) ->
   _generate_snippet lower is_word re_sub_bold content query = no_preview) /\
  _generate_snippet lower is_word re_sub_bold content query <> [] /\
  Py.startswith (_generate_snippet lower is_word re_sub_bold content query)
                arrow = true.
Proof.
  pose proof (generate_snippet_cases lower is_word re_sub_bold content query) as G.
  split; [apply split_not_nil|].
  split.
  - intros H. rewrite G. unfold snippet_text.
    now rewrite (first_matching_line_none lower _ _ H).
  - rewrite G.
    destruct (snippet_text lower is_word content query).
    + split; [discriminate|apply startswith_app].
    + split; [discriminate|reflexivity].
Qed.

Lemma snippet_bound_witness :
  snippet_text Py.ascii_lower Py.ascii_word (repeat 97%N 120) $"a"
  = Some (repeat 97%N 100 ++ $"...") /\
  length (repeat 97%N 100 ++ $"...") <= 103.
Proof.
  assert (H : snippet_text Py.ascii_lower Py.ascii_word (repeat 97%N 120) $"a"
              = Some (repeat 97%N 100 ++ $"...")) by (vm_compute; reflexivity).
  split; [exact H|].
  exact (proj1 (snippet_bound Py.ascii_lower Py.ascii_word Py.ascii_sub_bold
                              (repeat 97%N 120) $"a" _ H)).
Defined.

Lemma snippet_never_empty_witness :
  (forall line term,
      In line (Py.split 10%N $"alpha beta") ->
      In term (findall_words Py.ascii_word (Py.ascii_lower $"Gamma")) ->
      Py.contains (Py.ascii_lower line) term = false) /\
  _generate_snippet Py.ascii_lower Py.ascii_word Py.ascii_sub_bold
                    $"alpha beta" $"Gamma" = no_preview.
Proof.
  assert (H : forall line term,
             In line (Py.split 10%N $"alpha beta") ->
             In term (findall_words Py.ascii_word (Py.ascii_lower $"Gamma")) ->
             Py.contains (Py.ascii_lower line) term = false).
  { intros line term [<-|[]] [<-|[]]; vm_compute; reflexivity. }
  split; [exact H|].
  exact (proj1 (proj2 (snippet_never_empty Py.ascii_lower Py.ascii_word
                         Py.ascii_sub_bold $"alpha beta" $"Gamma")) H).
Defined.

(** ** Extraction *)

Section ExtractionFacts.

Variable lower : str -> str.
Variable w : world.

Lemma hwpx_collect_returns (file_path : str) (members : list (str * outcome str)) :
  exists texts logs,
    hwpx_collect lower file_path members = (Returns texts, logs).
Proof.
  induction members as [|[name body] rest (texts & logs & IH)]; simpl.
  - now exists [], [].
  - destruct (_ && _); [|now exists texts, logs].
    destruct body as [text|e]; unfold bind; rewrite IH; simpl; eauto.
Qed.

(** What the loop over the members gathers and logs. *)
Lemma hwpx_collect_run (file_path : str) (members : list (str * outcome str)) :
  hwpx_collect lower file_path members
  = (Returns
       (flat_map
          (fun m =>
             if Py.startswith (fst m) $"Contents/"
                && endswith (lower (fst m)) $".xml"
             then match snd m with Returns text => [text] | Raises _ => [] end
             else [])
          members),
     flat_map
       (fun m =>
          if Py.startswith (fst m) $"Contents/"
             && endswith (lower (fst m)) $".xml"
          then match snd m with
               | Returns _ => []
               | Raises _ => [HWPXMemberError (fst m) file_path]
               end
          else [])
       members).
Proof.
  induction members as [|[name body] rest IH]; [reflexivity|].
  cbn [hwpx_collect flat_map fst snd].
  destruct (_ && _); [|exact IH].
  destruct body as [text|e]; unfold bind, logger_error, ret; rewrite IH;
    cbn [app]; now rewrite ?app_nil_r.
Qed.

(** No parser lets an exception of its library out, and each answers the
    empty string when the library raises. *)
Lemma parse_returns (p : parser) (file_path : str) :
  exists s logs, parse lower w p file_path = (Returns s, logs).
Proof.
  destruct p; unfold parse, try_except, bind, lift, ret, logger_error; simpl.
  - destruct (hwp5txt w file_path); simpl; eauto.
  - destruct (hwpx_members w file_path) as [members|e]; simpl; eauto.
    destruct (hwpx_collect_returns file_path members) as (texts & logs & ->).
    simpl; eauto.
  - destruct (pdf_pages w file_path); simpl; eauto.
  - destruct (excel_lines w file_path); simpl; eauto.
Qed.

Lemma parse_file_returns (file_path : str) :
  exists s logs, parse_file lower w file_path = (Returns s, logs).
Proof.
  unfold parse_file, try_except, bind, lift.
  destruct (get_parser lower file_path) as [p|e]; simpl; eauto.
  destruct (parse_returns p file_path) as (s & logs & ->); simpl; eauto.
Qed.

Lemma parse_file_failure (file_path : str) (e : exn) :
  extraction lower w file_path = Raises e ->
  exists r logs, parse_file lower w file_path = (Returns [], r :: logs).
Proof.
  unfold extraction, parse_file, try_except, bind, lift.
  destruct (get_parser lower file_path) as [p|e']; simpl.
  - destruct p; unfold parse, try_except, bind, lift, ret, logger_error; simpl.
    + destruct (hwp5txt w file_path); [discriminate|simpl; eauto].
    + destruct (hwpx_members w file_path); [discriminate|simpl; eauto].
    + destruct (pdf_pages w file_path); [discriminate|simpl; eauto].
    + destruct (excel_lines w file_path); [discriminate|simpl; eauto].
  - eauto.
Qed.

End ExtractionFacts.

(** C9, as the code has it: [parse_file] always returns a string, whatever
    the path, the extension and the state of the file.  That string is
    empty when the parser cannot be chosen or the extraction library raises
    on the file as a whole.  A failure inside an [.hwpx] archive is not
    such a case: each member that does not parse is logged and skipped, and
    the text of the other members is returned. *)
Theorem parse_file_total (lower : str -> str) (w : world) (file_path : str) :
  exists s,
    fst (parse_file lower w file_path) = Returns s /\
    (forall e, extraction lower w file_path = Raises e -> s = []) /\
    (forall members,
        get_parser lower file_path = Returns HWPXParser ->
        hwpx_members w file_path = Returns members ->
        s = Py.strip (Py.join newline (hwpx_texts lower members)) /\
        snd (parse_file lower w file_path) = hwpx_errors lower file_path members).
Proof.
  destruct (parse_file_returns lower w file_path) as (s & logs & H).
  exists s; rewrite H; split; [reflexivity|split].
  - intros e He.
    destruct (parse_file_failure lower w file_path e He) as (r & logs' & H').
    congruence.
  - intros members Hp Hm; revert H.
    unfold parse_file, parse, try_except, bind, lift, ret.
    rewrite Hp; cbn [fst snd app].
    rewrite Hm, hwpx_collect_run; cbn [fst snd app].
    rewrite !app_nil_r.
    intros H; inversion H; split; reflexivity.
Qed.

Lemma parse_file_total_witness :
  extraction Py.ascii_lower sample_world $"/docs/notes.txt" = Raises ValueError /\
  fst (parse_file Py.ascii_lower sample_world $"/docs/notes.txt") = Returns [].
Proof.
  assert (H : extraction Py.ascii_lower sample_world $"/docs/notes.txt"
              = Raises ValueError) by (vm_compute; reflexivity).
  split; [exact H|].
  destruct (parse_file_total Py.ascii_lower sample_world $"/docs/notes.txt")
    as (s & Hs & Hfail & _).
  rewrite Hs; f_equal; exact (Hfail ValueError H).
Defined.

(** C9 as stated fails: a member of an archive fails to parse, the failure
    is logged as an error, and [parse_file] returns the text of the other
    member, which is not empty. *)
Lemma hwpx_member_failure_returns_text :
  hwpx_members sample_world $"/docs/a.hwpx"
  = Returns [($"Contents/section0.xml", Returns $"alpha");
             ($"Contents/section1.xml", Raises LibraryError);
             ($"META-INF/manifest.xml", Returns $"ignored")] /\
  parse_file Py.ascii_lower sample_world $"/docs/a.hwpx"
  = (Returns $"alpha",
     [HWPXMemberError $"Contents/section1.xml" $"/docs/a.hwpx"]) /\
  $"alpha" <> [].
Proof.
  split; [reflexivity|split; [vm_compute; reflexivity|discriminate]].
Qed.

(** ** The index store *)

Lemma str_in_In (x : str) (l : list str) : str_in x l = true <-> In x l.
Proof.
  unfold str_in; rewrite existsb_exists; split.
  - intros (y & Hy & E); apply eqb_eq in E; now subst.
  - intros H; exists x; split; [exact H|apply eqb_refl].
Qed.

Lemma filter_all_false (f : Doc -> bool) (l : list Doc) :
  (forall x, In x l -> f x = false) -> filter f l = [].
Proof.
  induction l as [|x l IH]; simpl; intros H; [reflexivity|].
  rewrite (H x) by now left.
  apply IH; intros; apply H; now right.
Qed.

Lemma filter_all_true (f : Doc -> bool) (l : list Doc) :
  (forall x, In x l -> f x = true) -> filter f l = l.
Proof.
  induction l as [|x l IH]; simpl; intros H; [reflexivity|].
  rewrite (H x) by now left.
  f_equal; apply IH; intros; apply H; now right.
Qed.

Lemma filter_twice (f g : Doc -> bool) (l : list Doc) :
  filter f (filter g l) = filter (fun x => g x && f x) l.
Proof.
  induction l as [|x l IH]; simpl; [reflexivity|].
  destruct (g x); simpl; [destruct (f x)|]; now rewrite IH.
Qed.

(** What a writer has become after a batch: the committed documents of
    the paths of the batch are gone, the batch is added. *)
Lemma upsert_writer (docs : list Doc) :
  forall wr,
    fold_left update_document docs wr
    = {| committed :=
           filter (fun d => negb (str_in (path d) (map path docs)))
                  (committed wr);
         added := added wr ++ docs |}.
Proof.
  induction docs as [|a docs IH]; intros [old new]; cbn [fold_left].
  - cbn [map str_in existsb negb committed added].
    rewrite app_nil_r, filter_all_true; [reflexivity|auto].
  - rewrite IH; unfold update_document; cbn [committed added].
    rewrite filter_twice, <- app_assoc; f_equal.
    apply filter_ext; intros d; cbn [map str_in existsb].
    now rewrite negb_orb.
Qed.

(** The index a batch leaves: the old documents of the paths the batch
    does not name, then the batch. *)
Lemma commit_upsert (docs : list Doc) (ix : index) :
  commit (fold_left update_document docs (writer ix))
  = filter (fun d => negb (str_in (path d) (map path docs))) ix ++ docs.
Proof.
  now rewrite upsert_writer.
Qed.

(** Upserting documents of new paths appends them. *)
Lemma upsert_distinct (docs : list Doc) (ix : index) :
  NoDup (map path (ix ++ docs)) ->
  commit (fold_left update_document docs (writer ix)) = ix ++ docs.
Proof.
  intros H; rewrite commit_upsert; f_equal.
  apply filter_all_true; intros d Hd.
  apply negb_true_iff; destruct (str_in _ _) eqn:E; [|reflexivity].
  apply str_in_In in E.
  rewrite map_app in H.
  apply (in_map path) in Hd.
  revert H Hd E; generalize (map path ix) (map path docs) (path d).
  intros l1 l2 p H H1 H2; exfalso.
  induction l1 as [|x l1 IH]; [destruct H1|].
  inversion H as [|? ? Hx Hnd]; subst.
  destruct H1 as [->|H1]; [apply Hx, in_or_app; now right|auto].
Qed.

(** The documents of a batch are in the index it leaves. *)
Lemma upsert_keeps (d : Doc) (docs : list Doc) (ix : index) :
  In d docs -> In d (commit (fold_left update_document docs (writer ix))).
Proof.
  intros H; rewrite commit_upsert; apply in_or_app; now right.
Qed.

(** ** The ingestion pipeline *)

Section PipelineFacts.

Variable lower : str -> str.
Variable w : world.

Lemma parse_job_ok (fpath : str) (d : Doc) :
  fst (parse_job lower w fpath) = JobOk d -> path d = fpath.
Proof.
  unfold parse_job, bind, lift, ret.
  destruct (parse_file lower w fpath) as [[c|e] l]; simpl.
  - destruct (getmtime w fpath); simpl; intros H; inversion H; reflexivity.
  - discriminate.
Qed.

(** A job fails exactly when the modification time cannot be read. *)
Lemma parse_job_err (fpath : str) (e : exn) :
  getmtime w fpath = Raises e ->
  fst (parse_job lower w fpath) = JobErr fpath e.
Proof.
  intros H; unfold parse_job, bind, lift, ret.
  destruct (parse_file_returns lower w fpath) as (s & logs & ->).
  now rewrite H.
Qed.

Lemma parse_job_empty_content (fpath : str) (e : exn) (m : Z) :
  extraction lower w fpath = Raises e ->
  getmtime w fpath = Returns m ->
  exists r logs,
    parse_job lower w fpath =
    (JobOk {| path := fpath; filename := OsPath.basename fpath;
              extension := lower (snd (OsPath.splitext fpath));
              content := []; modified := m |}, r :: logs).
Proof.
  intros He Hm; unfold parse_job, bind, lift, ret.
  destruct (parse_file_failure lower w fpath e He) as (r & logs & ->).
  rewrite Hm; simpl; eauto.
Qed.

Lemma successes_paths (l : list str) (p : str) :
  In p (map path (successes (jobs_run lower w l))) -> In p l.
Proof.
  induction l as [|f l IH]; simpl; [tauto|].
  destruct (fst (parse_job lower w f)) as [d|f' e] eqn:E; simpl.
  - intros [<-|H]; [left; symmetry; now apply parse_job_ok|right; auto].
  - intros H; right; auto.
Qed.

Lemma successes_nodup (l : list str) :
  NoDup l -> NoDup (map path (successes (jobs_run lower w l))).
Proof.
  induction 1 as [|f l Hnin Hnd IH]; simpl; [constructor|].
  destruct (fst (parse_job lower w f)) as [d|f' e] eqn:E; simpl; [|exact IH].
  constructor; [|exact IH].
  intros Hin; apply successes_paths in Hin.
  apply parse_job_ok in E; congruence.
Qed.

Lemma successes_from_job (l : list str) (d : Doc) :
  In d (successes (jobs_run lower w l)) ->
  In (path d) l /\ fst (parse_job lower w (path d)) = JobOk d.
Proof.
  induction l as [|f l IH]; simpl; [tauto|].
  destruct (fst (parse_job lower w f)) as [d'|f' e] eqn:E; simpl.
  - intros [->|H].
    + pose proof (parse_job_ok _ _ E) as <-; split; [now left|exact E].
    + destruct (IH H); split; [now right|assumption].
  - intros H; destruct (IH H); split; [now right|assumption].
Qed.

Lemma successes_of_job (l : list str) (f : str) (d : Doc) :
  In f l -> fst (parse_job lower w f) = JobOk d ->
  In d (successes (jobs_run lower w l)).
Proof.
  induction l as [|g l IH]; simpl; [tauto|].
  intros [->|Hin] Hd.
  - rewrite Hd; now left.
  - destruct (fst (parse_job lower w g)); [right|]; auto.
Qed.

Lemma successes_length (futures : list job_result) :
  length (successes futures) <= length futures.
Proof.
  induction futures as [|[d|f e] rest IH]; simpl; lia.
Qed.

Variable progress_callback : bool.
Variable cancel_callback : option (nat -> bool).
Variable clock : nat -> Z.

(** The loop gathers the successful jobs among the completions it
    handles, in order. *)
Lemma monitor_results (total_files : nat) (futures : list job_result) :
  forall i results trace,
    fst (monitor progress_callback cancel_callback clock total_files
                 i futures results trace)
    = results ++ successes (firstn (observed cancel_callback i futures) futures).
Proof.
  induction futures as [|future rest IH]; intros i results trace; simpl.
  - now rewrite app_nil_r.
  - destruct (cancelled cancel_callback i); simpl; [now rewrite app_nil_r|].
    destruct future as [d|f e]; rewrite IH; simpl.
    + now rewrite <- app_assoc.
    + reflexivity.
Qed.

Lemma index_files_commits (ix : index) (file_paths completion : list str) :
  fst (index_files lower w progress_callback cancel_callback clock
                   ix file_paths completion)
  = commit
      (fold_left update_document
         (successes (firstn (observed cancel_callback 1
                                      (jobs_run lower w completion))
                            (jobs_run lower w completion)))
         (writer ix)).
Proof.
  unfold index_files.
  pose proof (monitor_results (length file_paths) (jobs_run lower w completion)
                              1 [] []) as H.
  unfold jobs_run in *.
  destruct (monitor _ _ _ _ _ _ _ _) as [results trace].
  simpl in *; now subst.
Qed.

End PipelineFacts.

Lemma observed_no_cancel (i : nat) (futures : list job_result) :
  observed None i futures = length futures.
Proof.
  revert i; induction futures as [|f rest IH]; intros i; simpl; auto.
Qed.

Lemma observed_until (poll : nat -> bool) (futures : list job_result) :
  forall k i,
    (forall j, i <= j < i + k -> poll j = false) ->
    poll (i + k) = true ->
    k < length futures ->
    observed (Some poll) i futures = k.
Proof.
  induction futures as [|f rest IH]; intros k i Hfalse Htrue Hlen; simpl in *.
  - lia.
  - destruct k as [|k].
    + now rewrite Nat.add_0_r in Htrue; rewrite Htrue.
    + rewrite Hfalse by lia.
      f_equal; apply IH.
      * intros j Hj; apply Hfalse; lia.
      * now replace (S i + k) with (i + S k) by lia.
      * lia.
Qed.

(** Without cancellation and with a callback, the loop reports a job that
    returned once and a job that raised twice. *)
Lemma progress_calls_count
  (clock : nat -> Z) (total_files : nat) (futures : list job_result) :
  forall i results trace,
    length (filter is_progress
              (snd (monitor true None clock total_files i futures results trace)))
    + length (successes futures)
    = length (filter is_progress trace) + 2 * length futures.
Proof.
  induction futures as [|[d|f e] rest IH]; intros i results trace;
    cbn [monitor successes length cancelled call_progress].
  - cbn [snd]; lia.
  - match goal with
    | |- context [monitor _ _ _ _ ?i' _ ?rs ?tr] =>
        pose proof (IH i' rs tr) as H;
        set (run := monitor true None clock total_files i' rest rs tr) in *
    end.
    rewrite filter_app, length_app in H; simpl in H; lia.
  - match goal with
    | |- context [monitor _ _ _ _ ?i' _ ?rs ?tr] =>
        pose proof (IH i' rs tr) as H;
        set (run := monitor true None clock total_files i' rest rs tr) in *
    end.
    rewrite !filter_app, !length_app in H; simpl in H; lia.
Qed.

(** When every job returns, the callback is called once per job, in order,
    with the count so far, the total and the time since the start. *)
Lemma progress_calls_all_ok
  (clock : nat -> Z) (total_files : nat) (docs : list Doc) :
  forall i results trace,
    snd (monitor true None clock total_files i (map JobOk docs) results trace)
    = trace ++ map (fun j => Progress j total_files (clock j - clock 0))
                   (seq i (length docs)).
Proof.
  induction docs as [|d docs IH]; intros i results trace;
    cbn [map monitor cancelled call_progress length seq].
  - now rewrite app_nil_r.
  - rewrite IH, <- app_assoc; reflexivity.
Qed.

(** C1, as the code has it: when the poll answers true after [k] of the [n]
    jobs were handled, the documents written and committed are those of the
    successful jobs among these [k] completions, at most [k] and not [n];
    what the pool finishes afterwards is discarded.  From an empty index
    and distinct paths the committed index is exactly that list. *)
Theorem cancel_commits_observed_jobs
  (lower : str -> str) (w : world) (progress_callback : bool)
  (poll : nat -> bool) (clock : nat -> Z) (ix : index)
  (file_paths completion : list str) (k : nat) :
  Permutation completion file_paths ->
  (forall i, 1 <= i <= k -> poll i = false) ->
  poll (S k) = true ->
  k < length file_paths ->
  fst (index_files lower w progress_callback (Some poll) clock
                   ix file_paths completion)
  = commit (fold_left update_document
              (successes (firstn k (jobs_run lower w completion)))
              (writer ix)) /\
  length (successes (firstn k (jobs_run lower w completion))) <= k /\
  (ix = [] -> NoDup file_paths ->
   fst (index_files lower w progress_callback (Some poll) clock
                    ix file_paths completion)
   = successes (firstn k (jobs_run lower w completion))).
Proof.
  intros Hperm Hfalse Htrue Hk.
  assert (Hobs : observed (Some poll) 1 (jobs_run lower w completion) = k).
  { apply observed_until.
    - intros j Hj; apply Hfalse; lia.
    - exact Htrue.
    - unfold jobs_run; rewrite length_map, (Permutation_length Hperm); exact Hk. }
  assert (Hix : fst (index_files lower w progress_callback (Some poll) clock
                                 ix file_paths completion)
                = commit (fold_left update_document
                            (successes (firstn k (jobs_run lower w completion)))
                            (writer ix))).
  { now rewrite index_files_commits, Hobs. }
  split; [exact Hix|split].
  - etransitivity; [apply successes_length|].
    rewrite length_firstn; lia.
  - intros -> Hnd; rewrite Hix.
    rewrite upsert_distinct; [reflexivity|]; simpl.
    unfold jobs_run; rewrite firstn_map.
    apply successes_nodup.
    apply (Permutation_NoDup (Permutation_sym Hperm)) in Hnd.
    rewrite <- (firstn_skipn k completion) in Hnd.
    exact (NoDup_app_remove_r _ _ Hnd).
Qed.

Lemma cancel_commits_observed_jobs_witness :
  Permutation [$"/docs/b.pdf"; $"/docs/a.pdf"; $"/docs/c.pdf"] three_pdfs /\
  length (fst (index_files Py.ascii_lower sample_world true
                 (Some cancel_after_one) ticking [] three_pdfs
                 [$"/docs/b.pdf"; $"/docs/a.pdf"; $"/docs/c.pdf"])) <= 1.
Proof.
  assert (Hperm : Permutation [$"/docs/b.pdf"; $"/docs/a.pdf"; $"/docs/c.pdf"]
                              three_pdfs) by apply perm_swap.
  split; [exact Hperm|].
  destruct (cancel_commits_observed_jobs Py.ascii_lower sample_world true
              cancel_after_one ticking [] three_pdfs
              [$"/docs/b.pdf"; $"/docs/a.pdf"; $"/docs/c.pdf"] 1 Hperm)
    as (Hix & Hlen & _).
  - intros i Hi; assert (i = 1) as -> by lia; reflexivity.
  - reflexivity.
  - unfold three_pdfs; simpl; lia.
  - rewrite Hix; exact Hlen.
Defined.

(** C1 as stated fails: three jobs are submitted and run, the poll answers
    true after the first completion, and one document is committed. *)
Lemma cancel_drops_unobserved_jobs :
  length (jobs_run Py.ascii_lower sample_world three_pdfs) = 3 /\
  successes (jobs_run Py.ascii_lower sample_world three_pdfs)
  = map (fun p => {| path := p; filename := OsPath.basename p;
                     extension := $".pdf"; content := $"alpha beta";
                     modified := 1700000000 |}) three_pdfs /\
  length (fst (index_files Py.ascii_lower sample_world true
                 (Some cancel_after_one) ticking [] three_pdfs three_pdfs)) = 1 /\
  length (fst (index_files Py.ascii_lower sample_world true
                 (Some cancel_after_one) ticking [] three_pdfs three_pdfs))
  <> length three_pdfs.
Proof.
  repeat split; try (vm_compute; reflexivity).
  vm_compute; discriminate.
Qed.

(** C3, as the code has it: a file whose extraction fails is not skipped.
    The failure is logged by the parser layer, [parse_file] answers the
    empty string, and as long as the modification time can be read the job
    succeeds with empty content.  Without cancellation the documents
    written are those of all jobs that did not raise, so this file is
    committed with empty content and the other files are committed too. *)
Theorem failed_extraction_indexed_empty
  (lower : str -> str) (w : world) (progress_callback : bool)
  (clock : nat -> Z) (ix : index) (file_paths completion : list str)
  (f : str) (e : exn) (m : Z) :
  Permutation completion file_paths ->
  In f file_paths ->
  extraction lower w f = Raises e ->
  getmtime w f = Returns m ->
  (exists r logs,
      parse_job lower w f =
      (JobOk {| path := f; filename := OsPath.basename f;
                extension := lower (snd (OsPath.splitext f));
                content := []; modified := m |}, r :: logs)) /\
  fst (index_files lower w progress_callback None clock ix file_paths completion)
  = commit (fold_left update_document
              (successes (jobs_run lower w completion)) (writer ix)) /\
  In {| path := f; filename := OsPath.basename f;
        extension := lower (snd (OsPath.splitext f));
        content := []; modified := m |}
     (fst (index_files lower w progress_callback None clock
                       ix file_paths completion)).
Proof.
  intros Hperm Hin He Hm.
  destruct (parse_job_empty_content lower w f e m He Hm) as (r & logs & Hjob).
  assert (Hix : fst (index_files lower w progress_callback None clock
                                 ix file_paths completion)
                = commit (fold_left update_document
                            (successes (jobs_run lower w completion))
                            (writer ix))).
  { rewrite index_files_commits, observed_no_cancel.
    now rewrite firstn_all. }
  split; [now exists r, logs|].
  split; [exact Hix|].
  rewrite Hix.
  assert (Hfst : fst (parse_job lower w f)
                 = JobOk {| path := f; filename := OsPath.basename f;
                            extension := lower (snd (OsPath.splitext f));
                            content := []; modified := m |})
    by now rewrite Hjob.
  apply upsert_keeps.
  apply (successes_of_job lower w completion f); [|exact Hfst].
  apply (Permutation_in f (Permutation_sym Hperm)); exact Hin.
Qed.

Lemma failed_extraction_indexed_empty_witness :
  extraction Py.ascii_lower sample_world $"/docs/broken.pdf" = Raises LibraryError /\
  In {| path := $"/docs/broken.pdf"; filename := $"broken.pdf";
        extension := $".pdf"; content := []; modified := 1700000000 |}
     (fst (index_files Py.ascii_lower sample_world true None ticking []
             [$"/docs/a.pdf"; $"/docs/broken.pdf"]
             [$"/docs/broken.pdf"; $"/docs/a.pdf"])).
Proof.
  assert (He : extraction Py.ascii_lower sample_world $"/docs/broken.pdf"
               = Raises LibraryError) by (vm_compute; reflexivity).
  split; [exact He|].
  exact (proj2 (proj2 (failed_extraction_indexed_empty
                         Py.ascii_lower sample_world true ticking []
                         [$"/docs/a.pdf"; $"/docs/broken.pdf"]
                         [$"/docs/broken.pdf"; $"/docs/a.pdf"]
                         $"/docs/broken.pdf" LibraryError 1700000000
                         (perm_swap _ _ _) (or_intror (or_introl eq_refl))
                         He eq_refl))).
Defined.

(** C3 as stated fails: a file of an unsupported extension, whose
    extraction raises, is committed as a document with empty content. *)
Lemma unsupported_file_is_committed :
  extraction Py.ascii_lower sample_world $"/docs/notes.txt" = Raises ValueError /\
  index_files Py.ascii_lower sample_world true None ticking []
              [$"/docs/notes.txt"] [$"/docs/notes.txt"]
  = ([{| path := $"/docs/notes.txt"; filename := $"notes.txt";
         extension := $".txt"; content := []; modified := 1700000000 |}],
     [Progress 1 1 1]).
Proof.
  split; vm_compute; reflexivity.
Qed.

(** C6 fails on a job that raised: [continue] leaves the [try] through its
    [finally], so the callback is called twice for that job, first with an
    elapsed time of 0 and then with the time since the start. *)
Theorem failed_job_reported_twice (clock : nat -> Z) :
  fst (parse_job Py.ascii_lower sample_world $"/docs/gone.pdf")
  = JobErr $"/docs/gone.pdf" OSError /\
  index_files Py.ascii_lower sample_world true None clock []
              [$"/docs/gone.pdf"] [$"/docs/gone.pdf"]
  = ([], [Logged (JobError $"/docs/gone.pdf" OSError);
          Progress 1 1 0;
          Progress 1 1 (clock 1 - clock 0)]).
Proof.
  split; reflexivity.
Qed.

(** ** Opening the store *)

Lemma fs_set_same (fs : filesystem) (d : str) (s : dir_state) :
  fs_set fs d s d = s.
Proof.
  unfold fs_set; now rewrite eqb_refl.
Qed.

Lemma fs_set_other (fs : filesystem) (d d' : str) (s : dir_state) :
  d' <> d -> fs_set fs d s d' = fs d'.
Proof.
  intros H; unfold fs_set.
  apply eqb_neq in H; now rewrite H.
Qed.




(** ** The query engine *)

Lemma firstn_In (n : nat) (x : Doc) (l : list Doc) :
  In x (firstn n l) -> In x l.
Proof.
  intros H; rewrite <- (firstn_skipn n l); apply in_or_app; now left.
Qed.

Lemma insert_desc_In (key : Doc -> Z) (d x : Doc) (l : list Doc) :
  In x (insert_desc key d l) <-> x = d \/ In x l.
Proof.
  induction l as [|y l IH]; simpl.
  - intuition.
  - destruct (key d <? key y)%Z; simpl; rewrite ?IH; intuition.
Qed.

Lemma sort_desc_In (key : Doc -> Z) (x : Doc) (l : list Doc) :
  In x (sort_desc key l) <-> In x l.
Proof.
  induction l as [|d l IH]; simpl; [tauto|].
  rewrite insert_desc_In, IH; intuition.
Qed.

Lemma insert_desc_length (key : Doc -> Z) (d : Doc) (l : list Doc) :
  length (insert_desc key d l) = S (length l).
Proof.
  induction l as [|y l IH]; simpl; [reflexivity|].
  destruct (key d <? key y)%Z; simpl; now rewrite ?IH.
Qed.

Lemma sort_desc_length (key : Doc -> Z) (l : list Doc) :
  length (sort_desc key l) = length l.
Proof.
  induction l as [|d l IH]; simpl; [reflexivity|].
  now rewrite insert_desc_length, IH.
Qed.

Lemma hit_copy (l : list Doc) :
  map (fun r => {| path := path r; filename := filename r;
                   extension := extension r; content := content r;
                   modified := modified r |}) l = l.
Proof.
  induction l as [|[p f e c m] l IH]; simpl; [reflexivity|now rewrite IH].
Qed.

Section SearchFacts.

Variable term_matches : field -> str -> str -> bool.
Variable score : index -> query -> Doc -> Z.

Lemma search_unfold (ix : index) (query_str : str) (and_mode : bool)
      (sort_by : str) :
  search term_matches score ix query_str and_mode sort_by
  = firstn 50
      (sort_desc (if Py.eqb sort_by $"date" then modified
                  else score ix (parse_query and_mode query_str))
                 (filter (matches term_matches (parse_query and_mode query_str))
                         ix)).
Proof.
  unfold search, searcher_search; rewrite hit_copy.
  destruct (Py.eqb sort_by $"date"); reflexivity.
Qed.

(** What matches all the words matches one of them. *)
Lemma and_matches_or (query_str : str) (d : Doc) :
  matches term_matches (parse_query true query_str) d = true ->
  matches term_matches (parse_query false query_str) d = true.
Proof.
  unfold parse_query.
  destruct (Py.split_ws query_str) as [|word words]; [discriminate|].
  cbn [map matches].
  set (m := fun q' => matches term_matches q' d).
  cbn [forallb existsb]; intros H.
  apply andb_true_iff in H as [H _]; now rewrite H.
Qed.

Lemma search_length (ix : index) (query_str : str) (and_mode : bool)
      (sort_by : str) :
  length (search term_matches score ix query_str and_mode sort_by) <= 50.
Proof.
  rewrite search_unfold, length_firstn; apply Nat.le_min_l.
Qed.

Lemma search_hit_matches (ix : index) (query_str : str) (and_mode : bool)
      (sort_by : str) (d : Doc) :
  In d (search term_matches score ix query_str and_mode sort_by) ->
  In d ix /\ matches term_matches (parse_query and_mode query_str) d = true.
Proof.
  rewrite search_unfold; intros H.
  now apply firstn_In, sort_desc_In, filter_In in H.
Qed.

End SearchFacts.

(** C4, as the code has it: a hit of the AND query matches the OR query,
    so the AND hits are among the OR hits whenever the cap does not cut
    the OR result, that is when at most 50 documents match the OR query. *)
Theorem and_hits_within_uncapped_or_hits
  (term_matches : field -> str -> str -> bool)
  (score : index -> query -> Doc -> Z)
  (ix : index) (query_str sort_by : str) :
  length (filter (matches term_matches (parse_query false query_str)) ix) <= 50 ->
  forall d,
    In d (search term_matches score ix query_str true sort_by) ->
    In d (search term_matches score ix query_str false sort_by).
Proof.
  intros Hlen d Hd.
  apply search_hit_matches in Hd as [Hin Hm].
  apply and_matches_or in Hm.
  rewrite search_unfold, firstn_all2.
  - apply sort_desc_In, filter_In; now split.
  - now rewrite sort_desc_length.
Qed.

Lemma and_hits_within_uncapped_or_hits_witness :
  length (filter (matches word_analyzer (parse_query false $"alpha beta"))
                 small_corpus) <= 50 /\
  In oldest (search word_analyzer flat_score small_corpus
                    $"alpha beta" false $"date").
Proof.
  assert (H : length (filter (matches word_analyzer
                                      (parse_query false $"alpha beta"))
                             small_corpus) <= 50)
    by (vm_compute; lia).
  split; [exact H|].
  apply (and_hits_within_uncapped_or_hits word_analyzer flat_score small_corpus
           $"alpha beta" $"date" H oldest).
  vm_compute; left; reflexivity.
Defined.

(** C4 as stated fails: of 52 documents the oldest alone has both words;
    sorted by date, it is the AND hit and is not among the 50 OR hits. *)
Lemma and_hit_missing_from_or_hits :
  search word_analyzer flat_score sample_corpus $"alpha beta" true $"date"
  = [oldest] /\
  length (search word_analyzer flat_score sample_corpus
                 $"alpha beta" false $"date") = 50 /\
  ~ In oldest (search word_analyzer flat_score sample_corpus
                      $"alpha beta" false $"date").
Proof.
  split; [vm_compute; reflexivity|].
  split; [vm_compute; reflexivity|].
  intros H.
  assert (Hall : forallb (fun d => negb (Py.eqb (path d) (path oldest)))
                         (search word_analyzer flat_score sample_corpus
                                 $"alpha beta" false $"date") = true)
    by (vm_compute; reflexivity).
  rewrite forallb_forall in Hall.
  specialize (Hall oldest H).
  now rewrite eqb_refl in Hall.
Qed.

(** C7: whatever the index, the query, the mode and the sort key, [search]
    returns at most 50 hits: the first 50 of the ranked list of all the
    documents that match, cut inside [search] itself. *)
Theorem search_returns_at_most_50
  (term_matches : field -> str -> str -> bool)
  (score : index -> query -> Doc -> Z)
  (ix : index) (query_str : str) (and_mode : bool) (sort_by : str) :
  length (search term_matches score ix query_str and_mode sort_by) <= 50 /\
  exists ranked,
    search term_matches score ix query_str and_mode sort_by = firstn 50 ranked /\
    length ranked
    = length (filter (matches term_matches (parse_query and_mode query_str)) ix) /\
    forall d, In d ranked <->
              In d ix /\
              matches term_matches (parse_query and_mode query_str) d = true.
Proof.
  split; [apply search_length|].
  eexists; split; [apply search_unfold|].
  split; [apply sort_desc_length|].
  intros d; rewrite sort_desc_In; apply filter_In.
Qed.

(** ** The extension filter *)

Lemma filter_loop_spec (self : OptimizedApp) (results : list Doc) :
  forall filtered,
    filter_loop self results filtered
    = filtered ++ filter (fun r => negb (skipped self r)) results.
Proof.
  induction results as [|r rest IH]; intros filtered; simpl.
  - now rewrite app_nil_r.
  - destruct (skipped self r); simpl; rewrite IH; [reflexivity|].
    now rewrite <- app_assoc.
Qed.

Lemma filter_partition_length (f : Doc -> bool) (l : list Doc) :
  length (filter (fun r => negb (f r)) l) + length (filter f l) = length l.
Proof.
  induction l as [|r l IH]; simpl; [reflexivity|].
  destruct (f r); simpl; lia.
Qed.

(** A hit passes the filter exactly when the box of its extension is
    checked; a hit of any other extension always passes. *)
Lemma kept_iff_box_checked (self : OptimizedApp) (r : Doc) :
  skipped self r = false <->
  (extension r = $".hwp" -> filter_hwp self = true) /\
  (extension r = $".hwpx" -> filter_hwpx self = true) /\
  (extension r = $".pdf" -> filter_pdf self = true) /\
  (extension r = $".xls" \/ extension r = $".xlsx" -> filter_excel self = true).
Proof.
  unfold skipped; split.
  - intros H; repeat split; intros E; [| | |destruct E as [E|E]];
      rewrite E in H; cbn in H.
    + destruct (filter_hwp self); [reflexivity|discriminate].
    + destruct (filter_hwpx self); [reflexivity|discriminate].
    + destruct (filter_pdf self); [reflexivity|discriminate].
    + destruct (filter_excel self); [reflexivity|discriminate].
    + destruct (filter_excel self); [reflexivity|discriminate].
  - intros (H1 & H2 & H3 & H4).
    destruct (Py.eqb (extension r) $".hwp") eqn:E1;
      [apply eqb_eq in E1; rewrite ?(H1 E1)|]; cbn [andb negb];
    (destruct (Py.eqb (extension r) $".hwpx") eqn:E2;
      [apply eqb_eq in E2; rewrite ?(H2 E2)|]); cbn [andb negb];
    (destruct (Py.eqb (extension r) $".pdf") eqn:E3;
      [apply eqb_eq in E3; rewrite ?(H3 E3)|]); cbn [andb negb];
    (destruct (Py.eqb (extension r) $".xls") eqn:E4;
      [apply eqb_eq in E4; rewrite ?(H4 (or_introl E4))|]); cbn [andb orb negb];
    (destruct (Py.eqb (extension r) $".xlsx") eqn:E5;
      [apply eqb_eq in E5; rewrite ?(H4 (or_intror E5))|]); cbn [andb orb negb];
    reflexivity.
Qed.

(** C8: the list [on_search] shows is the hits of the one [search] call,
    at most 50, with the hits of a disabled extension removed and the order
    kept: a hit is shown exactly when the box of its extension is checked.
    The removed hits still count among the 50, and the store is not asked
    again: any store answering that one query alike gives the same list. *)
Theorem extension_filter_after_cap
  (term_matches : field -> str -> str -> bool)
  (score : index -> query -> Doc -> Z)
  (ix : index) (self self' : OptimizedApp) (filtered : list Doc) :
  on_search (search term_matches score ix) self = (self', Some filtered) ->
  exists and_mode sort_by,
    length (search term_matches score ix (Py.strip (search_var self))
                   and_mode sort_by) <= 50 /\
    filtered = filter (fun r => negb (skipped self r))
                      (search term_matches score ix (Py.strip (search_var self))
                              and_mode sort_by) /\
    current_results self' = filtered /\
    length filtered
    + length (filter (skipped self)
                     (search term_matches score ix (Py.strip (search_var self))
                             and_mode sort_by))
    = length (search term_matches score ix (Py.strip (search_var self))
                     and_mode sort_by) /\
    (forall idx_manager_search,
      idx_manager_search (Py.strip (search_var self)) and_mode sort_by
      = search term_matches score ix (Py.strip (search_var self))
               and_mode sort_by ->
      on_search idx_manager_search self = (self', Some filtered)) /\
    (forall r,
      In r filtered <->
      In r (search term_matches score ix (Py.strip (search_var self))
                   and_mode sort_by) /\
      (extension r = $".hwp" -> filter_hwp self = true) /\
      (extension r = $".hwpx" -> filter_hwpx self = true) /\
      (extension r = $".pdf" -> filter_pdf self = true) /\
      (extension r = $".xls" \/ extension r = $".xlsx" ->
       filter_excel self = true)).
Proof.
  unfold on_search.
  destruct (negb (Py.truthy (Py.strip (search_var self))) || _ || _);
    [discriminate|].
  rewrite filter_loop_spec; simpl.
  intros H; inversion H; subst; clear H.
  eexists _, _.
  split; [apply search_length|].
  split; [reflexivity|].
  split; [reflexivity|].
  split; [apply filter_partition_length|].
  split.
  - intros search_fn Hfn.
    now rewrite filter_loop_spec, Hfn.
  - intros r; rewrite filter_In, negb_true_iff, kept_iff_box_checked.
    reflexivity.
Qed.

Lemma extension_filter_after_cap_witness :
  on_search (search word_analyzer flat_score sample_corpus) sample_app
  = (sample_app, Some []) /\
  exists and_mode sort_by,
    length (filter (skipped sample_app)
                   (search word_analyzer flat_score sample_corpus
                           (Py.strip (search_var sample_app)) and_mode sort_by))
    = length (search word_analyzer flat_score sample_corpus
                     (Py.strip (search_var sample_app)) and_mode sort_by).
Proof.
  assert (H : on_search (search word_analyzer flat_score sample_corpus) sample_app
              = (sample_app, Some [])) by (vm_compute; reflexivity).
  split; [exact H|].
  destruct (extension_filter_after_cap word_analyzer flat_score sample_corpus
              sample_app sample_app [] H)
    as (and_mode & sort_by & _ & _ & _ & Hslots & _).
  exists and_mode, sort_by; exact Hslots.
Defined.

(** The order of the two steps shows on the sample corpus: the 50 most
    recent hits are PDF files, the PDF box is cleared, and nothing is shown
    although a document of an enabled extension matches the query. *)
Lemma filter_does_not_refill :
  snd (on_search (search word_analyzer flat_score sample_corpus) sample_app)
  = Some [] /\
  In oldest sample_corpus /\
  matches word_analyzer (parse_query false $"alpha beta") oldest = true /\
  skipped sample_app oldest = false.
Proof.
  repeat split; try (vm_compute; reflexivity).
  now left.
Qed.

(** * Further properties *)

(** ** What a run leaves in the index *)

Lemma map_filter_nodup (f : Doc -> bool) (l : list Doc) :
  NoDup (map path l) -> NoDup (map path (filter f l)).
Proof.
  induction l as [|x l IH]; simpl; intros H; [constructor|].
  inversion H as [|? ? Hnin Hnd]; subst.
  destruct (f x); simpl; [|auto].
  constructor; [|auto].
  intros Hin; apply Hnin.
  apply in_map_iff in Hin as (y & Hy & Hin).
  apply filter_In in Hin as [Hin _].
  apply in_map_iff; now exists y.
Qed.

(** After a batch the index holds the old documents of the paths the batch
    does not name, and the documents of the batch. *)
Lemma upsert_In (docs : list Doc) (ix : index) (d : Doc) :
  In d (commit (fold_left update_document docs (writer ix))) <->
  (In d ix /\ ~ In (path d) (map path docs)) \/ In d docs.
Proof.
  rewrite commit_upsert, in_app_iff, filter_In, negb_true_iff.
  rewrite <- str_in_In.
  destruct (str_in (path d) (map path docs)); intuition congruence.
Qed.

(** A batch of pairwise distinct paths keeps the paths of the index
    pairwise distinct. *)
Lemma upsert_nodup (docs : list Doc) (ix : index) :
  NoDup (map path ix) -> NoDup (map path docs) ->
  NoDup (map path (commit (fold_left update_document docs (writer ix)))).
Proof.
  intros Hix Hdocs; rewrite commit_upsert, map_app.
  apply NoDup_app; [now apply map_filter_nodup|exact Hdocs|].
  intros p Hp Hq.
  apply in_map_iff in Hp as (y & <- & Hin).
  apply filter_In in Hin as [_ Hin].
  apply negb_true_iff in Hin.
  apply str_in_In in Hq; congruence.
Qed.

(** Committing the same batch again changes nothing. *)
Lemma upsert_twice (docs : list Doc) (ix : index) :
  commit (fold_left update_document docs
            (writer (commit (fold_left update_document docs (writer ix)))))
  = commit (fold_left update_document docs (writer ix)).
Proof.
  rewrite !commit_upsert, filter_app, filter_twice.
  rewrite (filter_all_false _ docs).
  - rewrite app_nil_r; f_equal.
    apply filter_ext; intros d; now destruct (negb _).
  - intros d Hd; apply negb_false_iff, str_in_In, in_map, Hd.
Qed.

Lemma nodup_firstn (k : nat) (l : list str) : NoDup l -> NoDup (firstn k l).
Proof.
  intros H; rewrite <- (firstn_skipn k l) in H.
  now apply NoDup_app_remove_r in H.
Qed.

Section RunFacts.

Variable lower : str -> str.
Variable w : world.

Lemma successes_consistent (l : list str) (a b : Doc) :
  In a (successes (jobs_run lower w l)) ->
  In b (successes (jobs_run lower w l)) ->
  path a = path b -> a = b.
Proof.
  intros Ha Hb E.
  apply successes_from_job in Ha as [_ Ha].
  apply successes_from_job in Hb as [_ Hb].
  rewrite E in Ha; congruence.
Qed.

Lemma successes_path_In (l : list str) (p : str) :
  In p (map path (successes (jobs_run lower w l))) <->
  In p l /\ exists d, fst (parse_job lower w p) = JobOk d.
Proof.
  split.
  - intros H; apply in_map_iff in H as (d & <- & Hd).
    apply successes_from_job in Hd as [Hin Hd]; eauto.
  - intros (Hin & d & Hd).
    pose proof (parse_job_ok lower w p d Hd) as <-.
    apply in_map, (successes_of_job lower w l (path d)); assumption.
Qed.

End RunFacts.

(** Membership in the index after a run without cancellation. *)
Lemma index_files_membership
  (lower : str -> str) (w : world) (progress_callback : bool)
  (clock : nat -> Z) (ix : index) (file_paths completion : list str) (d : Doc) :
  Permutation completion file_paths ->
  In d (fst (index_files lower w progress_callback None clock
                         ix file_paths completion)) <->
  (In d ix /\
   ~ (In (path d) file_paths /\
      exists d', fst (parse_job lower w (path d)) = JobOk d')) \/
  (In (path d) file_paths /\ fst (parse_job lower w (path d)) = JobOk d).
Proof.
  intros Hperm.
  rewrite index_files_commits, observed_no_cancel.
  unfold jobs_run at 1; rewrite length_map.
  replace (length completion) with (length (jobs_run lower w completion))
    by (unfold jobs_run; apply length_map).
  rewrite firstn_all.
  rewrite upsert_In.
  rewrite successes_path_In.
  assert (Hin : forall p, In p completion <-> In p file_paths).
  { intros p; split; apply Permutation_in;
      [exact Hperm|exact (Permutation_sym Hperm)]. }
  rewrite Hin.
  split; (intros [H|H]; [left; exact H|right]).
  - apply successes_from_job in H as [H1 H2]; split; [apply Hin, H1|exact H2].
  - destruct H as [H1 H2].
    apply (successes_of_job lower w completion (path d)); [apply Hin, H1|exact H2].
Qed.

(** X1: what a run without cancellation leaves in the index.  A document
    is in the index afterwards exactly when it was there and no job of the
    batch succeeded for its path, or when it is the document a job of the
    batch built; so a file whose job raised keeps the document it had, and
    documents of paths outside the batch are never touched. *)
Theorem index_after_run
  (lower : str -> str) (w : world) (progress_callback : bool)
  (clock : nat -> Z) (ix : index) (file_paths completion : list str) (d : Doc) :
  Permutation completion file_paths ->
  In d (fst (index_files lower w progress_callback None clock
                         ix file_paths completion)) <->
  (In d ix /\
   ~ (In (path d) file_paths /\
      exists d', fst (parse_job lower w (path d)) = JobOk d')) \/
  (In (path d) file_paths /\ fst (parse_job lower w (path d)) = JobOk d).
Proof.
  apply index_files_membership.
Qed.

Lemma index_after_run_witness :
  Permutation [$"/docs/gone.pdf"; $"/docs/a.pdf"]
              [$"/docs/a.pdf"; $"/docs/gone.pdf"] /\
  In {| path := $"/docs/gone.pdf"; filename := $"gone.pdf";
        extension := $".pdf"; content := $"old text"; modified := 5 |}
     (fst (index_files Py.ascii_lower sample_world true None ticking
             [{| path := $"/docs/gone.pdf"; filename := $"gone.pdf";
                 extension := $".pdf"; content := $"old text"; modified := 5 |}]
             [$"/docs/a.pdf"; $"/docs/gone.pdf"]
             [$"/docs/gone.pdf"; $"/docs/a.pdf"])).
Proof.
  split; [apply perm_swap|].
  apply (proj2 (index_after_run Py.ascii_lower sample_world true ticking
                  [{| path := $"/docs/gone.pdf"; filename := $"gone.pdf";
                      extension := $".pdf"; content := $"old text";
                      modified := 5 |}]
                  [$"/docs/a.pdf"; $"/docs/gone.pdf"]
                  [$"/docs/gone.pdf"; $"/docs/a.pdf"]
                  {| path := $"/docs/gone.pdf"; filename := $"gone.pdf";
                     extension := $".pdf"; content := $"old text";
                     modified := 5 |}
                  (perm_swap _ _ _))).
  left; split; [now left|].
  intros [_ [d' Hd']]; vm_compute in Hd'; discriminate.
Defined.

(** X2: whatever the cancellation, a run over pairwise distinct paths
    keeps the paths of the index pairwise distinct: at most one document
    per path. *)
Theorem index_files_unique_paths
  (lower : str -> str) (w : world) (progress_callback : bool)
  (cancel_callback : option (nat -> bool)) (clock : nat -> Z)
  (ix : index) (file_paths completion : list str) :
  NoDup (map path ix) ->
  NoDup file_paths ->
  Permutation completion file_paths ->
  NoDup (map path (fst (index_files lower w progress_callback cancel_callback
                                    clock ix file_paths completion))).
Proof.
  intros Hix Hnd Hperm; rewrite index_files_commits.
  apply upsert_nodup; [exact Hix|].
  unfold jobs_run at 2; rewrite firstn_map.
  apply (successes_nodup lower w), nodup_firstn.
  exact (Permutation_NoDup (Permutation_sym Hperm) Hnd).
Qed.

Lemma index_files_unique_paths_witness :
  NoDup (map path small_corpus) /\
  NoDup [$"/docs/x.pdf"; $"/docs/a.pdf"] /\
  NoDup (map path (fst (index_files Py.ascii_lower sample_world true None
                          ticking small_corpus
                          [$"/docs/x.pdf"; $"/docs/a.pdf"]
                          [$"/docs/a.pdf"; $"/docs/x.pdf"]))).
Proof.
  assert (H : NoDup (map path small_corpus)).
  { repeat constructor; simpl; intros H;
      repeat (destruct H as [H|H]; [discriminate H|]); exact H. }
  assert (H' : NoDup [$"/docs/x.pdf"; $"/docs/a.pdf"]).
  { repeat constructor; simpl; intros H';
      repeat (destruct H' as [H'|H']; [discriminate H'|]); exact H'. }
  split; [exact H|split; [exact H'|]].
  exact (index_files_unique_paths Py.ascii_lower sample_world true None ticking
           small_corpus _ _ H H' (perm_swap _ _ _)).
Defined.

(** A path submitted twice in one batch is indexed twice: the writer
    replaces the committed documents of a path, not the ones it has just
    added. *)
Lemma repeated_path_indexed_twice :
  map path (fst (index_files Py.ascii_lower sample_world true None ticking []
                   [$"/docs/a.pdf"; $"/docs/a.pdf"]
                   [$"/docs/a.pdf"; $"/docs/a.pdf"]))
  = [$"/docs/a.pdf"; $"/docs/a.pdf"].
Proof.
  vm_compute; reflexivity.
Qed.

(** X3: without cancellation the documents in the index after a run do not
    depend on the order in which the pool finishes the jobs. *)
Theorem index_independent_of_completion_order
  (lower : str -> str) (w : world) (progress_callback : bool)
  (clock clock' : nat -> Z) (ix : index)
  (file_paths completion completion' : list str) (d : Doc) :
  Permutation completion file_paths ->
  Permutation completion' file_paths ->
  In d (fst (index_files lower w progress_callback None clock
                         ix file_paths completion)) <->
  In d (fst (index_files lower w progress_callback None clock'
                         ix file_paths completion')).
Proof.
  intros H H'.
  rewrite (index_files_membership lower w progress_callback clock ix
                                   file_paths completion d H).
  rewrite (index_files_membership lower w progress_callback clock' ix
                                   file_paths completion' d H').
  reflexivity.
Qed.

Lemma index_independent_of_completion_order_witness :
  Permutation three_pdfs three_pdfs /\
  Permutation [$"/docs/c.pdf"; $"/docs/b.pdf"; $"/docs/a.pdf"] three_pdfs /\
  In {| path := $"/docs/a.pdf"; filename := $"a.pdf"; extension := $".pdf";
        content := $"alpha beta"; modified := 1700000000 |}
     (fst (index_files Py.ascii_lower sample_world true None ticking []
             three_pdfs [$"/docs/c.pdf"; $"/docs/b.pdf"; $"/docs/a.pdf"])).
Proof.
  assert (H : Permutation [$"/docs/c.pdf"; $"/docs/b.pdf"; $"/docs/a.pdf"]
                          three_pdfs).
  { apply Permutation_sym, (Permutation_rev three_pdfs). }
  split; [apply Permutation_refl|split; [exact H|]].
  apply (proj1 (index_independent_of_completion_order Py.ascii_lower
                  sample_world true ticking ticking [] three_pdfs three_pdfs
                  [$"/docs/c.pdf"; $"/docs/b.pdf"; $"/docs/a.pdf"]
                  {| path := $"/docs/a.pdf"; filename := $"a.pdf";
                     extension := $".pdf"; content := $"alpha beta";
                     modified := 1700000000 |}
                  (Permutation_refl _) H)).
  vm_compute; left; reflexivity.
Defined.

(** X4: running [index_files] again on the index it produced, with the same
    files finishing in the same order under the same poll answers, changes
    nothing. *)
Theorem index_files_twice
  (lower : str -> str) (w : world) (progress_callback progress_callback' : bool)
  (cancel_callback : option (nat -> bool)) (clock clock' : nat -> Z)
  (ix : index) (file_paths completion : list str) :
  fst (index_files lower w progress_callback' cancel_callback clock'
         (fst (index_files lower w progress_callback cancel_callback clock
                 ix file_paths completion))
         file_paths completion)
  = fst (index_files lower w progress_callback cancel_callback clock
           ix file_paths completion).
Proof.
  rewrite !index_files_commits; apply upsert_twice.
Qed.

(** ** What a search returns *)

Lemma insert_desc_perm (key : Doc -> Z) (d : Doc) (l : list Doc) :
  Permutation (insert_desc key d l) (d :: l).
Proof.
  induction l as [|x l IH]; simpl; [reflexivity|].
  destruct (key d <? key x)%Z; [|reflexivity].
  rewrite IH; apply perm_swap.
Qed.

Lemma sort_desc_perm (key : Doc -> Z) (l : list Doc) :
  Permutation (sort_desc key l) l.
Proof.
  induction l as [|d l IH]; simpl; [reflexivity|].
  now rewrite insert_desc_perm, IH.
Qed.

Lemma insert_desc_sorted (key : Doc -> Z) (d : Doc) (l : list Doc) :
  StronglySorted (fun a b => (key b <= key a)%Z) l ->
  StronglySorted (fun a b => (key b <= key a)%Z) (insert_desc key d l).
Proof.
  induction 1 as [|x l Hs IH Hall]; simpl.
  - repeat constructor.
  - destruct (key d <? key x)%Z eqn:E.
    + apply Z.ltb_lt in E.
      constructor; [exact IH|].
      rewrite Forall_forall in *; intros y Hy.
      apply insert_desc_In in Hy as [->|Hy]; [lia|auto].
    + apply Z.ltb_ge in E.
      constructor; [now constructor|].
      constructor; [exact E|].
      rewrite Forall_forall in *; intros y Hy.
      specialize (Hall y Hy); lia.
Qed.

Lemma sort_desc_sorted (key : Doc -> Z) (l : list Doc) :
  StronglySorted (fun a b => (key b <= key a)%Z) (sort_desc key l).
Proof.
  induction l as [|d l IH]; simpl; [constructor|].
  now apply insert_desc_sorted.
Qed.

Lemma sorted_app_order (R : Doc -> Doc -> Prop) (l1 l2 : list Doc) :
  StronglySorted R (l1 ++ l2) ->
  StronglySorted R l1 /\ forall a b, In a l1 -> In b l2 -> R a b.
Proof.
  induction l1 as [|x l1 IH]; simpl; intros H.
  - split; [constructor|intros a b []].
  - apply StronglySorted_inv in H as [Hs Hall].
    destruct (IH Hs) as [Hs1 Hord].
    rewrite Forall_forall in Hall.
    split.
    + constructor; [exact Hs1|].
      apply Forall_forall; intros y Hy; apply Hall, in_or_app; now left.
    + intros a b [<-|Ha] Hb; [apply Hall, in_or_app; now right|auto].
Qed.

Lemma split_ws_aux_blank (s : str) :
  forallb Py.isspace s = true -> Py.split_ws_aux [] s = [].
Proof.
  induction s as [|c s IH]; simpl; [reflexivity|].
  intros H; apply andb_true_iff in H as [Hc Hs].
  rewrite Hc; auto.
Qed.

Lemma lstrip_blank (s : str) :
  forallb Py.isspace s = true -> Py.lstrip s = [].
Proof.
  induction s as [|c s IH]; simpl; [reflexivity|].
  intros H; apply andb_true_iff in H as [Hc Hs].
  rewrite Hc; auto.
Qed.

Lemma strip_blank (s : str) :
  forallb Py.isspace s = true -> Py.strip s = [].
Proof.
  intros H; unfold Py.strip, Py.rstrip.
  now rewrite (lstrip_blank s H).
Qed.

(** X5: the hits come in the order of the sort key, largest first: under
    the date sort no hit is more recent than the one before it, otherwise
    no hit scores higher than the one before it. *)
Theorem search_hits_sorted
  (term_matches : field -> str -> str -> bool)
  (score : index -> query -> Doc -> Z)
  (ix : index) (query_str : str) (and_mode : bool) (sort_by : str) :
  let key := if Py.eqb sort_by $"date" then modified
             else score ix (parse_query and_mode query_str) in
  StronglySorted (fun a b => (key b <= key a)%Z)
                 (search term_matches score ix query_str and_mode sort_by).
Proof.
  intros key; rewrite search_unfold; fold key.
  pose proof (sort_desc_sorted key
                (filter (matches term_matches (parse_query and_mode query_str)) ix))
    as H.
  rewrite <- (firstn_skipn 50 (sort_desc key _)) in H.
  now apply sorted_app_order in H.
Qed.

(** X6: the cap keeps the best: a document of the index that matches the
    query and is not among the hits does not rank above any hit (under the
    date sort, it is not more recent than any hit). *)
Theorem search_cap_keeps_top
  (term_matches : field -> str -> str -> bool)
  (score : index -> query -> Doc -> Z)
  (ix : index) (query_str : str) (and_mode : bool) (sort_by : str)
  (d hit : Doc) :
  let key := if Py.eqb sort_by $"date" then modified
             else score ix (parse_query and_mode query_str) in
  In d ix ->
  matches term_matches (parse_query and_mode query_str) d = true ->
  ~ In d (search term_matches score ix query_str and_mode sort_by) ->
  In hit (search term_matches score ix query_str and_mode sort_by) ->
  (key d <= key hit)%Z.
Proof.
  intros key Hin Hm Hnot Hhit.
  rewrite search_unfold in Hnot, Hhit; fold key in Hnot, Hhit.
  set (ranked := sort_desc key
                   (filter (matches term_matches
                                    (parse_query and_mode query_str)) ix)) in *.
  assert (Hd : In d ranked) by (apply sort_desc_In, filter_In; now split).
  pose proof (sort_desc_sorted key
                (filter (matches term_matches (parse_query and_mode query_str)) ix))
    as H.
  fold ranked in H.
  rewrite <- (firstn_skipn 50 ranked) in H, Hd.
  apply sorted_app_order in H as [_ H].
  apply in_app_or in Hd as [Hd|Hd]; [contradiction|].
  exact (H hit d Hhit Hd).
Qed.

Lemma search_cap_keeps_top_witness :
  In oldest sample_corpus /\
  (modified oldest <= modified (recent 2))%Z.
Proof.
  split; [now left|].
  apply (search_cap_keeps_top word_analyzer flat_score sample_corpus
           $"alpha beta" false $"date" oldest (recent 2)).
  - now left.
  - vm_compute; reflexivity.
  - intros H.
    assert (Hall : forallb (fun d => negb (Py.eqb (path d) (path oldest)))
                           (search word_analyzer flat_score sample_corpus
                                   $"alpha beta" false $"date") = true)
      by (vm_compute; reflexivity).
    rewrite forallb_forall in Hall.
    specialize (Hall oldest H).
    now rewrite eqb_refl in Hall.
  - vm_compute; do 49 right; left; reflexivity.
Defined.

(** X7: a hit is a stored document that matches the query; if the paths of
    the index are pairwise distinct no path is listed twice; and when at
    most 50 documents match, every one of them is a hit. *)
Theorem search_hits_sound_and_complete
  (term_matches : field -> str -> str -> bool)
  (score : index -> query -> Doc -> Z)
  (ix : index) (query_str : str) (and_mode : bool) (sort_by : str) :
  NoDup (map path ix) ->
  (forall d, In d (search term_matches score ix query_str and_mode sort_by) ->
             In d ix /\
             matches term_matches (parse_query and_mode query_str) d = true) /\
  NoDup (map path (search term_matches score ix query_str and_mode sort_by)) /\
  (length (filter (matches term_matches (parse_query and_mode query_str)) ix)
   <= 50 ->
   forall d, In d ix ->
             matches term_matches (parse_query and_mode query_str) d = true ->
             In d (search term_matches score ix query_str and_mode sort_by)).
Proof.
  intros Hnd.
  split; [intros d; apply search_hit_matches|].
  rewrite search_unfold.
  set (key := if Py.eqb sort_by $"date" then modified
              else score ix (parse_query and_mode query_str)).
  set (found := filter (matches term_matches (parse_query and_mode query_str)) ix).
  split.
  - assert (H : NoDup (map path (sort_desc key found))).
    { apply (Permutation_NoDup
               (Permutation_map path (Permutation_sym (sort_desc_perm key found)))).
      now apply map_filter_nodup. }
    rewrite <- (firstn_skipn 50 (sort_desc key found)), map_app in H.
    exact (NoDup_app_remove_r _ _ H).
  - intros Hlen d Hin Hm.
    rewrite firstn_all2 by now rewrite sort_desc_length.
    apply sort_desc_In, filter_In; now split.
Qed.

Lemma search_hits_sound_and_complete_witness :
  NoDup (map path small_corpus) /\
  NoDup (map path (search word_analyzer flat_score small_corpus
                          $"alpha" false $"relevance")).
Proof.
  assert (H : NoDup (map path small_corpus)).
  { repeat constructor; simpl; intros H;
      repeat (destruct H as [H|H]; [discriminate H|]); exact H. }
  split; [exact H|].
  exact (proj1 (proj2 (search_hits_sound_and_complete word_analyzer flat_score
                         small_corpus $"alpha" false $"relevance" H))).
Defined.

(** X8: a query string without any word, empty or of white space only,
    has no hit, in either mode and whatever the index. *)
Theorem search_blank_query
  (term_matches : field -> str -> str -> bool)
  (score : index -> query -> Doc -> Z)
  (ix : index) (query_str : str) (and_mode : bool) (sort_by : str) :
  forallb Py.isspace query_str = true ->
  search term_matches score ix query_str and_mode sort_by = [].
Proof.
  intros H; rewrite search_unfold.
  unfold parse_query, Py.split_ws; rewrite (split_ws_aux_blank query_str H).
  cbn [map].
  replace (filter _ ix) with (@nil Doc); [now destruct (Py.eqb sort_by $"date")|].
  symmetry; apply filter_all_false; intros d _.
  now destruct and_mode.
Qed.

Lemma search_blank_query_witness :
  forallb Py.isspace $"   " = true /\
  search word_analyzer flat_score sample_corpus $"   " true $"date" = [].
Proof.
  split; [reflexivity|].
  apply (search_blank_query word_analyzer flat_score sample_corpus
           $"   " true $"date"); reflexivity.
Defined.

(** ** The search box *)

(** X9: when the search box holds nothing but white space, or one of the
    two placeholder texts (with or without white space around), [on_search]
    leaves the state as it is and shows the guide, whatever the store would
    answer: no query is made. *)
Theorem on_search_ignores_blank_and_placeholder
  (idx_manager_search : str -> bool -> str -> list Doc) (self : OptimizedApp) :
  forallb Py.isspace (search_var self) = true \/
  Py.strip (search_var self) = placeholder_query \/
  Py.strip (search_var self) = placeholder_folder ->
  on_search idx_manager_search self = (self, None).
Proof.
  unfold on_search; intros [H|[H|H]].
  - now rewrite (strip_blank _ H).
  - rewrite H, eqb_refl; now rewrite orb_true_r.
  - rewrite H, eqb_refl; now rewrite orb_true_r.
Qed.

Lemma on_search_ignores_blank_and_placeholder_witness :
  Py.strip (search_var {| search_var := placeholder_query ++ $"  ";
                          mode_var := $"AND"; sort_var := [];
                          filter_hwp := true; filter_hwpx := true;
                          filter_pdf := true; filter_excel := true;
                          current_results := small_corpus |})
  = placeholder_query /\
  on_search (search word_analyzer flat_score sample_corpus)
            {| search_var := placeholder_query ++ $"  ";
               mode_var := $"AND"; sort_var := [];
               filter_hwp := true; filter_hwpx := true;
               filter_pdf := true; filter_excel := true;
               current_results := small_corpus |}
  = ({| search_var := placeholder_query ++ $"  ";
        mode_var := $"AND"; sort_var := [];
        filter_hwp := true; filter_hwpx := true;
        filter_pdf := true; filter_excel := true;
        current_results := small_corpus |}, None).
Proof.
  split; [reflexivity|].
  apply on_search_ignores_blank_and_placeholder.
  right; left; reflexivity.
Defined.

(** X10: with the four boxes checked, as they are at start, nothing is
    filtered: a search with a real query shows exactly the hits of the
    store, in their order, and records them as the current results. *)
Theorem on_search_all_boxes_checked
  (idx_manager_search : str -> bool -> str -> list Doc) (self : OptimizedApp) :
  filter_hwp self = true -> filter_hwpx self = true ->
  filter_pdf self = true -> filter_excel self = true ->
  Py.strip (search_var self) <> [] ->
  Py.strip (search_var self) <> placeholder_query ->
  Py.strip (search_var self) <> placeholder_folder ->
  exists hits,
    hits = idx_manager_search
             (Py.strip (search_var self))
             (Py.eqb (mode_var self) $"AND")
             (if Py.eqb (sort_var self) sort_by_date_label
              then $"date" else $"relevance") /\
    snd (on_search idx_manager_search self) = Some hits /\
    current_results (fst (on_search idx_manager_search self)) = hits.
Proof.
  intros H1 H2 H3 H4 Hne Hq Hf.
  eexists; split; [reflexivity|].
  unfold on_search.
  apply eqb_neq in Hq, Hf; rewrite Hq, Hf.
  destruct (Py.strip (search_var self)) as [|c q] eqn:E; [contradiction|].
  cbn [Py.truthy negb orb].
  rewrite filter_loop_spec; cbn [app fst snd current_results].
  rewrite filter_all_true; [split; reflexivity|].
  intros r _; unfold skipped; rewrite H1, H2, H3, H4.
  now rewrite !andb_false_r.
Qed.

Lemma on_search_all_boxes_checked_witness :
  Py.strip $" alpha beta " <> [] /\
  snd (on_search (search word_analyzer flat_score small_corpus)
         {| search_var := $" alpha beta "; mode_var := $"AND";
            sort_var := sort_by_date_label;
            filter_hwp := true; filter_hwpx := true;
            filter_pdf := true; filter_excel := true;
            current_results := [] |})
  = Some [oldest].
Proof.
  assert (Hne : Py.strip $" alpha beta " <> []) by (vm_compute; discriminate).
  split; [exact Hne|].
  destruct (on_search_all_boxes_checked
              (search word_analyzer flat_score small_corpus)
              {| search_var := $" alpha beta "; mode_var := $"AND";
                 sort_var := sort_by_date_label;
                 filter_hwp := true; filter_hwpx := true;
                 filter_pdf := true; filter_excel := true;
                 current_results := [] |}
              eq_refl eq_refl eq_refl eq_refl Hne)
    as (hits & Hhits & Hsnd & _).
  - vm_compute; discriminate.
  - vm_compute; discriminate.
  - rewrite Hsnd, Hhits; vm_compute; reflexivity.
Defined.

(** ** The five extensions *)

Lemma splitext_ext_of_basename (p q : str) :
  OsPath.basename p = OsPath.basename q ->
  snd (OsPath.splitext p) = snd (OsPath.splitext q).
Proof.
  intros H; unfold OsPath.splitext; rewrite H.
  destruct (OsPath.after_last OsPath.dot (OsPath.basename q)); [reflexivity|].
  now destruct (forallb _ _).
Qed.

Lemma after_last_absent (c : Py.char) (s : str) :
  ~ In c s -> OsPath.after_last c s = 0.
Proof.
  induction s as [|x s IH]; simpl; intros H; [reflexivity|].
  rewrite IH by tauto.
  destruct (N.eqb x c) eqn:E; [|reflexivity].
  apply N.eqb_eq in E; subst; tauto.
Qed.

Lemma after_last_app (c : Py.char) (a s : str) :
  ~ In c s -> OsPath.after_last c (a ++ c :: s) = S (length a).
Proof.
  intros H; induction a as [|x a IH]; simpl.
  - now rewrite (after_last_absent c s H), N.eqb_refl.
  - now rewrite IH.
Qed.

Lemma basename_plain (f : str) :
  ~ In OsPath.sep f -> OsPath.basename f = f.
Proof.
  intros H; unfold OsPath.basename; now rewrite after_last_absent.
Qed.

Lemma basename_app (a f : str) :
  ~ In OsPath.sep f -> OsPath.basename (a ++ OsPath.sep :: f) = f.
Proof.
  intros H; unfold OsPath.basename; rewrite after_last_app by exact H.
  induction a as [|x a IH]; [reflexivity|exact IH].
Qed.

Lemma endswith_sep (a : str) :
  endswith a [OsPath.sep] = true -> exists a', a = a' ++ [OsPath.sep].
Proof.
  unfold endswith; change (rev [OsPath.sep]) with [OsPath.sep]; intros H.
  destruct (rev a) as [|x t] eqn:E; [discriminate|].
  cbn [Py.startswith] in H.
  rewrite andb_true_r in H; apply N.eqb_eq in H; subst x.
  exists (rev t).
  rewrite <- (rev_involutive a), E; reflexivity.
Qed.

(** Joining a directory and a file name keeps the name as the last
    component. *)
Lemma basename_join (root f : str) :
  ~ In OsPath.sep f -> OsPath.basename (os_path_join root f) = f.
Proof.
  intros H; unfold os_path_join.
  destruct (Py.startswith f [OsPath.sep]) eqn:Es.
  - destruct f as [|c f]; [discriminate|]; cbn [Py.startswith] in Es.
    rewrite andb_true_r in Es; apply N.eqb_eq in Es; subst; simpl in H; tauto.
  - destruct (negb (Py.truthy root) || endswith root [OsPath.sep]) eqn:E.
    + apply orb_true_iff in E as [E|E].
      * destruct root; [now apply basename_plain|discriminate].
      * apply endswith_sep in E as [a' ->].
        rewrite <- app_assoc; now apply basename_app.
    + now apply basename_app.
Qed.

Ltac split_extension ext :=
  destruct (Py.eqb ext $".hwp") eqn:?;
  destruct (Py.eqb ext $".hwpx") eqn:?;
  destruct (Py.eqb ext $".pdf") eqn:?;
  destruct (Py.eqb ext $".xls") eqn:?;
  destruct (Py.eqb ext $".xlsx") eqn:?.

Lemma get_parser_supported (lower : str -> str) (file_path : str) :
  (exists p, get_parser lower file_path = Returns p) <->
  str_in (lower (snd (OsPath.splitext file_path))) exts = true.
Proof.
  unfold get_parser, str_in, exts; cbn [existsb].
  split_extension (lower (snd (OsPath.splitext file_path)));
    cbn [orb]; split; intros H; try reflexivity; try discriminate;
    try (destruct H; discriminate); eauto.
Qed.

Lemma icon_supported (ext : str) :
  _get_icon ext <> icon_other <-> str_in ext exts = true.
Proof.
  unfold _get_icon, str_in, exts; cbn [existsb].
  split_extension ext; cbn [orb]; split; intros H;
    try reflexivity; try discriminate; try (now contradiction H).
Qed.

Lemma skipped_supported (r : Doc) :
  (exists self, skipped self r = true) <-> str_in (extension r) exts = true.
Proof.
  split.
  - intros [self H]; revert H; unfold skipped, str_in, exts; cbn [existsb].
    split_extension (extension r); cbn [orb andb]; intros H;
      try reflexivity; discriminate.
  - intros H.
    exists {| search_var := []; mode_var := []; sort_var := [];
              filter_hwp := false; filter_hwpx := false;
              filter_pdf := false; filter_excel := false;
              current_results := [] |}.
    revert H; unfold skipped, str_in, exts; cbn [existsb filter_hwp
      filter_hwpx filter_pdf filter_excel negb].
    split_extension (extension r); cbn [orb andb]; intros H;
      try reflexivity; discriminate.
Qed.

(** X11: the same five extensions everywhere: a path gets a parser, an
    extension gets an icon of its own, and a hit can be hidden by a check
    box, exactly for the extensions [_collect_files] lets through. *)
Theorem five_extensions_agree (lower : str -> str) (file_path : str) (r : Doc) :
  ((exists p, get_parser lower file_path = Returns p) <->
   str_in (lower (snd (OsPath.splitext file_path))) exts = true) /\
  (_get_icon (extension r) <> icon_other <->
   str_in (extension r) exts = true) /\
  ((exists self, skipped self r = true) <->
   str_in (extension r) exts = true).
Proof.
  split; [apply get_parser_supported|].
  split; [apply icon_supported|apply skipped_supported].
Qed.

(** X12: every file [_collect_files] gathers has a parser: for the paths
    a reindex submits, [get_parser] never raises, and the extension stored
    with the document is one of the five.  File names hold no slash. *)
Theorem collected_files_have_parsers
  (lower : str -> str) (os_walk : str -> list (str * list str))
  (monitor_dirs : list str) (file_path : str) :
  (forall d root files_in_dir f,
      In d monitor_dirs -> In (root, files_in_dir) (os_walk d) ->
      In f files_in_dir -> ~ In OsPath.sep f) ->
  In file_path (_collect_files lower os_walk monitor_dirs) ->
  (exists p, get_parser lower file_path = Returns p) /\
  str_in (lower (snd (OsPath.splitext file_path))) exts = true /\
  exists d root files_in_dir f,
    In d monitor_dirs /\ In (root, files_in_dir) (os_walk d) /\
    In f files_in_dir /\ file_path = os_path_join root f.
Proof.
  intros Hnames Hin.
  unfold _collect_files in Hin.
  apply in_flat_map in Hin as (d & Hd & Hin).
  apply in_flat_map in Hin as ([root files_in_dir] & Hroot & Hin).
  apply in_map_iff in Hin as (f & <- & Hin).
  apply filter_In in Hin as [Hf Hext].
  assert (Hsame : snd (OsPath.splitext (os_path_join root f))
                  = snd (OsPath.splitext f)).
  { apply splitext_ext_of_basename.
    pose proof (Hnames d root files_in_dir f Hd Hroot Hf) as Hsep.
    now rewrite basename_join, basename_plain. }
  split; [apply get_parser_supported; now rewrite Hsame|].
  split; [now rewrite Hsame|].
  now exists d, root, files_in_dir, f.
Qed.

Lemma collected_files_have_parsers_witness :
  In $"/docs/b.HWP"
     (_collect_files Py.ascii_lower sample_walk [$"/docs"; $"/docs/old"]) /\
  exists p, get_parser Py.ascii_lower $"/docs/b.HWP" = Returns p.
Proof.
  assert (H : In $"/docs/b.HWP"
                 (_collect_files Py.ascii_lower sample_walk
                                 [$"/docs"; $"/docs/old"]))
    by (vm_compute; right; left; reflexivity).
  split; [exact H|].
  apply (collected_files_have_parsers Py.ascii_lower sample_walk
           [$"/docs"; $"/docs/old"] $"/docs/b.HWP"); [|exact H].
  intros d root files_in_dir f Hd Hroot Hf Hsep.
  assert (Hall : forallb (fun d => forallb (fun rf =>
                   forallb (fun f => negb (existsb (N.eqb OsPath.sep) f))
                           (snd rf)) (sample_walk d))
                         [$"/docs"; $"/docs/old"] = true)
    by (vm_compute; reflexivity).
  rewrite forallb_forall in Hall; specialize (Hall d Hd).
  rewrite forallb_forall in Hall; specialize (Hall _ Hroot).
  rewrite forallb_forall in Hall; specialize (Hall f Hf).
  apply negb_true_iff in Hall.
  assert (Hex : existsb (N.eqb OsPath.sep) f = true).
  { apply existsb_exists; exists OsPath.sep; split; [exact Hsep|apply N.eqb_refl]. }
  congruence.
Defined.

(** ** The folder list *)

Lemma remove_at_split {A} (l : list A) :
  forall idx x, nth_error l idx = Some x ->
                exists l1 l2, l = l1 ++ x :: l2 /\ remove_at idx l = l1 ++ l2.
Proof.
  induction l as [|y l IH]; intros [|idx] x H; simpl in H; try discriminate.
  - injection H as ->; now exists [], l.
  - destruct (IH idx x H) as (l1 & l2 & -> & Hr).
    exists (y :: l1), l2; split; [reflexivity|].
    unfold remove_at in *; simpl in *; now rewrite Hr.
Qed.

Lemma nodup_snoc (l : list str) (x : str) :
  NoDup l -> ~ In x l -> NoDup (l ++ [x]).
Proof.
  intros Hl Hx; apply NoDup_app; [exact Hl|repeat constructor; intros []|].
  intros a Ha [<-|[]]; contradiction.
Qed.

(** One callback keeps the folder list well formed. *)
Lemma handle_keeps (self : FolderState) (ev : ui_event) :
  NoDup (monitor_dirs self) /\ ~ In [] (monitor_dirs self) /\
  dir_list self = monitor_dirs self /\ length (monitor_dirs self) <= 5 ->
  NoDup (monitor_dirs (handle self ev)) /\
  ~ In [] (monitor_dirs (handle self ev)) /\
  dir_list (handle self ev) = monitor_dirs (handle self ev) /\
  length (monitor_dirs (handle self ev)) <= 5.
Proof.
  intros (Hnd & Hne & Hmir & Hlen).
  destruct ev as [|folder|sel| | |text]; cbn [handle].
  - now cbn.
  - unfold _add_folder.
    destruct (5 <=? length (monitor_dirs self)) eqn:E5; [now cbn|].
    apply Nat.leb_gt in E5.
    destruct (Py.truthy folder && negb (str_in folder (monitor_dirs self)))
      eqn:E; [|now cbn].
    apply andb_true_iff in E as [Ht Hin].
    apply negb_true_iff in Hin.
    assert (Hnin : ~ In folder (monitor_dirs self)).
    { intros H; apply str_in_In in H; congruence. }
    assert (Hres : NoDup (monitor_dirs self ++ [folder]) /\
                   ~ In [] (monitor_dirs self ++ [folder]) /\
                   dir_list self ++ [folder] = monitor_dirs self ++ [folder] /\
                   length (monitor_dirs self ++ [folder]) <= 5).
    { split; [now apply nodup_snoc|].
      split; [|split; [now rewrite Hmir|rewrite length_app; simpl; lia]].
      intros H; apply in_app_or in H as [H|[H|[]]]; [tauto|].
      subst folder; discriminate. }
    now destruct (nonempty _ && _); cbn.
  - unfold _remove_folder.
    destruct sel as [|idx sel]; [now cbn|].
    destruct (nth_error (monitor_dirs self) idx) as [x|] eqn:E; [|now cbn].
    destruct (remove_at_split _ _ _ E) as (l1 & l2 & Hl & Hr).
    assert (Hres : NoDup (remove_at idx (monitor_dirs self)) /\
                   ~ In [] (remove_at idx (monitor_dirs self)) /\
                   remove_at idx (dir_list self)
                   = remove_at idx (monitor_dirs self) /\
                   length (remove_at idx (monitor_dirs self)) <= 5).
    { rewrite Hmir, Hr; rewrite Hl in Hnd, Hne, Hlen.
      split; [exact (NoDup_remove_1 _ _ _ Hnd)|].
      split; [|split; [reflexivity|]].
      - intros H; apply Hne, in_or_app.
        apply in_app_or in H as [H|H]; [now left|right; now right].
      - rewrite length_app in *; simpl in Hlen; lia. }
    now destruct (negb _); cbn.
  - unfold _clear_placeholder; now destruct (str_in _ _); cbn.
  - unfold _add_placeholder; now destruct (negb _); cbn.
  - now cbn.
Qed.

(** X13: through any sequence of callbacks on the folder list and the
    search entry, the monitored folders stay pairwise distinct, non-empty
    strings, at most five, and the list box shows exactly them. *)
Theorem folder_list_invariant (events : list ui_event) (self : FolderState) :
  NoDup (monitor_dirs self) -> ~ In [] (monitor_dirs self) ->
  dir_list self = monitor_dirs self -> length (monitor_dirs self) <= 5 ->
  NoDup (monitor_dirs (fold_left handle events self)) /\
  ~ In [] (monitor_dirs (fold_left handle events self)) /\
  dir_list (fold_left handle events self)
  = monitor_dirs (fold_left handle events self) /\
  length (monitor_dirs (fold_left handle events self)) <= 5.
Proof.
  revert self; induction events as [|ev events IH]; intros self H1 H2 H3 H4.
  - now cbn.
  - cbn [fold_left].
    destruct (handle_keeps self ev (conj H1 (conj H2 (conj H3 H4))))
      as (K1 & K2 & K3 & K4).
    now apply IH.
Qed.

Lemma folder_list_invariant_witness :
  NoDup (monitor_dirs initial_folders) /\
  monitor_dirs
    (fold_left handle
       [OpenSettings; AddFolder $"/docs"; AddFolder $"/docs"; AddFolder [];
        AddFolder $"/a"; AddFolder $"/b"; AddFolder $"/c"; AddFolder $"/d";
        AddFolder $"/e"; RemoveFolder [9]; RemoveFolder [1]]
       initial_folders)
  = [$"/docs"; $"/b"; $"/c"; $"/d"] /\
  length
    (monitor_dirs
       (fold_left handle
          [OpenSettings; AddFolder $"/docs"; AddFolder $"/docs"; AddFolder [];
           AddFolder $"/a"; AddFolder $"/b"; AddFolder $"/c"; AddFolder $"/d";
           AddFolder $"/e"; RemoveFolder [9]; RemoveFolder [1]]
          initial_folders)) <= 5.
Proof.
  split; [constructor|].
  split; [vm_compute; reflexivity|].
  apply (folder_list_invariant
           [OpenSettings; AddFolder $"/docs"; AddFolder $"/docs"; AddFolder [];
            AddFolder $"/a"; AddFolder $"/b"; AddFolder $"/c"; AddFolder $"/d";
            AddFolder $"/e"; RemoveFolder [9]; RemoveFolder [1]]
           initial_folders).
  - constructor.
  - intros [].
  - reflexivity.
  - cbn; lia.
Defined.

(** X14: the placeholder texts are inert.  Leaving an empty search entry
    puts a placeholder in it, in gray: the one asking for a query when a
    folder is monitored, the one asking for a folder otherwise; an entry
    that is not empty is left as it is.  Entering the entry again empties
    it, and a search started while the placeholder is shown makes no
    query.  Removing the last folder puts the placeholder asking for a
    folder in the entry, whatever it held, and a search then makes no
    query either. *)
Theorem placeholders_are_inert
  (idx_manager_search : str -> bool -> str -> list Doc)
  (folders : FolderState) (self : OptimizedApp) :
  (search_entry folders = [] ->
   search_entry (_add_placeholder folders)
   = (if nonempty (monitor_dirs folders)
      then placeholder_query else placeholder_folder) /\
   search_entry_foreground (_add_placeholder folders) = $"gray" /\
   monitor_dirs (_add_placeholder folders) = monitor_dirs folders /\
   search_entry (_clear_placeholder (_add_placeholder folders)) = [] /\
   search_entry_foreground (_clear_placeholder (_add_placeholder folders))
   = text_primary /\
   (search_var self = search_entry (_add_placeholder folders) ->
    on_search idx_manager_search self = (self, None))) /\
  (search_entry folders <> [] -> _add_placeholder folders = folders) /\
  (forall idx folders' shown,
      _remove_folder folders [idx] = Some (folders', shown) ->
      monitor_dirs folders' = [] ->
      search_entry folders' = placeholder_folder /\
      search_entry_foreground folders' = $"gray" /\
      (search_var self = search_entry folders' ->
       on_search idx_manager_search self = (self, None))).
Proof.
  assert (Hguard : forall q, q = placeholder_query \/ q = placeholder_folder ->
                             search_var self = q ->
                             on_search idx_manager_search self = (self, None)).
  { intros q [-> | ->] Hq; unfold on_search; rewrite Hq; reflexivity. }
  split; [|split].
  - intros Hempty.
    unfold _add_placeholder; rewrite Hempty; cbn [Py.truthy negb].
    cbn [search_entry search_entry_foreground monitor_dirs].
    split; [now destruct (nonempty (monitor_dirs folders))|].
    split; [reflexivity|].
    split; [reflexivity|].
    split; [now destruct (nonempty (monitor_dirs folders))|].
    split; [now destruct (nonempty (monitor_dirs folders))|].
    apply Hguard.
    destruct (nonempty (monitor_dirs folders)); auto.
  - intros Hfull; unfold _add_placeholder.
    destruct (search_entry folders); [congruence|reflexivity].
  - intros idx folders' shown Hrm Hnone.
    assert (Hshown : search_entry folders' = placeholder_folder /\
                     search_entry_foreground folders' = $"gray").
    { unfold _remove_folder in Hrm.
      destruct (nth_error (monitor_dirs folders) idx); [|discriminate].
      destruct (remove_at idx (monitor_dirs folders)) eqn:E;
        cbn [nonempty negb] in Hrm; inversion Hrm; subst; cbn in *;
        [split; reflexivity|congruence]. }
    destruct Hshown as [Hentry Hgray].
    split; [exact Hentry|split; [exact Hgray|]].
    apply Hguard; right; exact Hentry.
Qed.

Lemma placeholders_are_inert_witness :
  search_entry (handle initial_folders FocusIn) = [] /\
  search_entry (_add_placeholder (handle initial_folders FocusIn))
  = placeholder_folder /\
  search_entry (_clear_placeholder (_add_placeholder
                                      (handle initial_folders FocusIn))) = [].
Proof.
  assert (H : search_entry (handle initial_folders FocusIn) = [])
    by reflexivity.
  split; [exact H|].
  destruct (proj1 (placeholders_are_inert
                     (search word_analyzer flat_score sample_corpus)
                     (handle initial_folders FocusIn) sample_app) H)
    as (Hshown & _ & _ & Hcleared & _).
  split; [exact Hshown|exact Hcleared].
Defined.

(** ** Clearing the index *)

Section ClearIndexFacts.

Variable os_remove : str -> nat -> bool.
Variable index_entries : index -> list str.
Variable cleared_by_create_in : str -> bool.

Lemma remove_files_kept (index_dir : str) (names : list str) :
  fst (remove_files os_remove index_dir names)
  = filter (fun f => negb (os_remove (os_path_join index_dir f) 1)
                     && negb (os_remove (os_path_join index_dir f) 2))
           names.
Proof.
  induction names as [|f rest IH]; simpl; [reflexivity|].
  destruct (remove_files os_remove index_dir rest) as [kept warnings].
  simpl in IH; subst kept.
  destruct (os_remove (os_path_join index_dir f) 1); simpl; [reflexivity|].
  destruct (os_remove (os_path_join index_dir f) 2); reflexivity.
Qed.

Lemma remove_files_warnings (index_dir : str) (names : list str) :
  length (snd (remove_files os_remove index_dir names))
  = length (filter (fun f => negb (os_remove (os_path_join index_dir f) 1))
                   names)
    + length (fst (remove_files os_remove index_dir names)).
Proof.
  induction names as [|f rest IH]; simpl; [reflexivity|].
  destruct (remove_files os_remove index_dir rest) as [kept warnings].
  simpl in IH.
  destruct (os_remove (os_path_join index_dir f) 1); simpl; [exact IH|].
  destruct (os_remove (os_path_join index_dir f) 2); simpl; lia.
Qed.

(** The two ways [clear_index] ends on an existing directory. *)
Lemma clear_index_run (fs : filesystem) (self : IndexManager)
      (files : list str) (stored : option index) :
  fs (index_dir self) = Present files stored ->
  clear_index os_remove index_entries cleared_by_create_in fs self
  = (if create_in_can_clear os_remove cleared_by_create_in (index_dir self)
          (fst (remove_files os_remove (index_dir self)
                             (listing index_entries files stored)))
     then
       Returns
         (fs_set
            (fs_set fs (index_dir self)
               (Present
                  (filter (fun f => negb (cleared_by_create_in f))
                     (fst (remove_files os_remove (index_dir self)
                                        (listing index_entries files stored))))
                  None))
            (index_dir self)
            (Present
               (filter (fun f => negb (cleared_by_create_in f))
                  (fst (remove_files os_remove (index_dir self)
                                     (listing index_entries files stored))))
               (Some [])),
          {| index_dir := index_dir self; ix := [] |})
     else Raises OSError,
     snd (remove_files os_remove (index_dir self)
                       (listing index_entries files stored))).
Proof.
  intros H; unfold clear_index; rewrite H.
  destruct (remove_files os_remove (index_dir self)
                         (listing index_entries files stored))
    as [kept warnings].
  cbn [fst snd].
  destruct (create_in_can_clear _ _ _ kept); [|reflexivity].
  unfold create_in, open_dir, bind, ret, lift; cbn [fst snd].
  rewrite fs_set_same; cbn.
  rewrite fs_set_same; reflexivity.
Qed.

(** [create_in] has nothing it cannot delete when every name it clears
    can be removed at one of the three attempts. *)
Lemma create_in_can_clear_when (index_dir : str) (names : list str) :
  (forall f, In f names -> cleared_by_create_in f = true ->
             os_remove (os_path_join index_dir f) 1 = true \/
             os_remove (os_path_join index_dir f) 2 = true \/
             os_remove (os_path_join index_dir f) 3 = true) ->
  create_in_can_clear os_remove cleared_by_create_in index_dir
    (fst (remove_files os_remove index_dir names)) = true.
Proof.
  intros H; unfold create_in_can_clear.
  apply forallb_forall; intros f Hf.
  apply filter_In in Hf as [Hf Hc].
  rewrite remove_files_kept in Hf.
  apply filter_In in Hf as [Hf Hfail].
  apply andb_true_iff in Hfail as [H1 H2].
  apply negb_true_iff in H1, H2.
  destruct (H f Hf Hc) as [E|[E|E]]; congruence.
Qed.

End ClearIndexFacts.

Lemma search_empty_index
  (term_matches : field -> str -> str -> bool)
  (score : index -> query -> Doc -> Z)
  (query_str : str) (and_mode : bool) (sort_by : str) :
  search term_matches score [] query_str and_mode sort_by = [].
Proof.
  rewrite search_unfold; cbn [filter].
  now destruct (Py.eqb sort_by $"date").
Qed.

(** X15: on an existing directory [clear_index] goes through exactly when
    [create_in] can delete the old tables of contents the loop has left,
    which is so whenever each of them can be removed at one of the three
    attempts; the failed removals of other files never make it raise.  It
    then leaves an empty index there, touches no other directory, and the
    store can be opened again at once and is empty, so that any search on
    it has no hit.  Otherwise it raises, after the warnings of the loop. *)
Theorem clear_index_leaves_empty_store
  (os_remove : str -> nat -> bool) (index_entries : index -> list str)
  (cleared_by_create_in : str -> bool)
  (fs : filesystem) (self : IndexManager)
  (files : list str) (stored : option index) :
  fs (index_dir self) = Present files stored ->
  (create_in_can_clear os_remove cleared_by_create_in (index_dir self)
     (fst (remove_files os_remove (index_dir self)
                        (listing index_entries files stored))) = true ->
   exists fs' kept warnings,
     clear_index os_remove index_entries cleared_by_create_in fs self
     = (Returns (fs', {| index_dir := index_dir self; ix := [] |}), warnings) /\
     fs' (index_dir self) = Present kept (Some []) /\
     (forall d, d <> index_dir self -> fs' d = fs d) /\
     IndexManager_init fs' (index_dir self)
     = (Returns (fs', {| index_dir := index_dir self; ix := [] |}), []) /\
     forall term_matches score query_str and_mode sort_by,
       search term_matches score [] query_str and_mode sort_by = []) /\
  (create_in_can_clear os_remove cleared_by_create_in (index_dir self)
     (fst (remove_files os_remove (index_dir self)
                        (listing index_entries files stored))) = false ->
   clear_index os_remove index_entries cleared_by_create_in fs self
   = (Raises OSError,
      snd (remove_files os_remove (index_dir self)
                        (listing index_entries files stored)))) /\
  ((forall f, In f (listing index_entries files stored) ->
              cleared_by_create_in f = true ->
              os_remove (os_path_join (index_dir self) f) 1 = true \/
              os_remove (os_path_join (index_dir self) f) 2 = true \/
              os_remove (os_path_join (index_dir self) f) 3 = true) ->
   create_in_can_clear os_remove cleared_by_create_in (index_dir self)
     (fst (remove_files os_remove (index_dir self)
                        (listing index_entries files stored))) = true).
Proof.
  intros H.
  pose proof (clear_index_run os_remove index_entries cleared_by_create_in
                              fs self files stored H) as Hrun.
  split; [|split].
  - intros Hok; rewrite Hok in Hrun.
    eexists _, _, _.
    split; [exact Hrun|].
    split; [apply fs_set_same|].
    split; [intros d Hd; now rewrite !fs_set_other|].
    split.
    + unfold IndexManager_init, exists_, open_dir, bind, ret, lift.
      rewrite fs_set_same; cbn; rewrite fs_set_same; reflexivity.
    + intros; apply search_empty_index.
  - intros Hno; now rewrite Hno in Hrun.
  - apply create_in_can_clear_when.
Qed.

Lemma clear_index_leaves_empty_store_witness :
  used_fs $"indexdir" = Present [$"notes.tmp"; $"stale.lock"] (Some small_corpus) /\
  create_in_can_clear removable toc_name $"indexdir"
    (fst (remove_files removable $"indexdir"
            (listing sample_entries [$"notes.tmp"; $"stale.lock"]
                     (Some small_corpus)))) = true /\
  exists fs' warnings,
    clear_index removable sample_entries toc_name used_fs
                {| index_dir := $"indexdir"; ix := small_corpus |}
    = (Returns (fs', {| index_dir := $"indexdir"; ix := [] |}), warnings).
Proof.
  split; [reflexivity|split; [vm_compute; reflexivity|]].
  destruct (proj1 (clear_index_leaves_empty_store removable sample_entries
                     toc_name used_fs
                     {| index_dir := $"indexdir"; ix := small_corpus |}
                     [$"notes.tmp"; $"stale.lock"] (Some small_corpus) eq_refl)
                  eq_refl)
    as (fs' & kept & warnings & H & _).
  now exists fs', warnings.
Defined.

(** When no file of the directory can be removed, the old table of
    contents is still there for [create_in], which cannot delete it
    either: [clear_index] raises after the eight warnings of the loop. *)
Lemma clear_index_raises_on_locked_toc :
  fst (clear_index all_locked sample_entries toc_name used_fs
                   {| index_dir := $"indexdir"; ix := small_corpus |})
  = Raises OSError /\
  length (snd (clear_index all_locked sample_entries toc_name used_fs
                           {| index_dir := $"indexdir"; ix := small_corpus |}))
  = 8.
Proof.
  split; vm_compute; reflexivity.
Qed.

(** X16: the loop of [clear_index] runs over every entry of the directory,
    the files of the index included.  The names it leaves are exactly those
    whose removal failed twice, in their order; it logs one warning for
    each first failure and one more for each name left, whether the call
    then returns or raises.  When it returns, the files left in the
    directory beside the new index are the names left by the loop that
    [create_in] does not delete.  On a directory that does not exist it
    raises and creates nothing. *)
Theorem clear_index_leftovers
  (os_remove : str -> nat -> bool) (index_entries : index -> list str)
  (cleared_by_create_in : str -> bool)
  (fs : filesystem) (self : IndexManager) :
  (forall files stored,
      fs (index_dir self) = Present files stored ->
      fst (remove_files os_remove (index_dir self)
                        (listing index_entries files stored))
      = filter (fun f =>
                  negb (os_remove (os_path_join (index_dir self) f) 1)
                  && negb (os_remove (os_path_join (index_dir self) f) 2))
               (listing index_entries files stored) /\
      length (snd (clear_index os_remove index_entries cleared_by_create_in
                               fs self))
      = length (filter (fun f =>
                          negb (os_remove (os_path_join (index_dir self) f) 1))
                       (listing index_entries files stored))
        + length (filter (fun f =>
                     negb (os_remove (os_path_join (index_dir self) f) 1)
                     && negb (os_remove (os_path_join (index_dir self) f) 2))
                  (listing index_entries files stored)) /\
      (forall fs' m,
          fst (clear_index os_remove index_entries cleared_by_create_in fs self)
          = Returns (fs', m) ->
          fs' (index_dir self)
          = Present
              (filter (fun f => negb (cleared_by_create_in f))
                 (filter (fun f =>
                            negb (os_remove (os_path_join (index_dir self) f) 1)
                            && negb (os_remove (os_path_join (index_dir self) f) 2))
                         (listing index_entries files stored)))
              (Some [])) /\
      ((forall f, In f (listing index_entries files stored) ->
                  cleared_by_create_in f = false) ->
       exists fs' m,
         fst (clear_index os_remove index_entries cleared_by_create_in fs self)
         = Returns (fs', m) /\
         fs' (index_dir self)
         = Present
             (filter (fun f =>
                        negb (os_remove (os_path_join (index_dir self) f) 1)
                        && negb (os_remove (os_path_join (index_dir self) f) 2))
                     (listing index_entries files stored))
             (Some []))) /\
  (fs (index_dir self) = Absent ->
   clear_index os_remove index_entries cleared_by_create_in fs self
   = (Raises OSError, [])).
Proof.
  split.
  - intros files stored H.
    pose proof (clear_index_run os_remove index_entries cleared_by_create_in
                                fs self files stored H) as Hrun.
    split; [apply remove_files_kept|].
    split; [|split].
    + rewrite Hrun; cbn [snd].
      rewrite remove_files_warnings, remove_files_kept; reflexivity.
    + intros fs' m Hret; rewrite Hrun in Hret; cbn [fst] in Hret.
      destruct (create_in_can_clear _ _ _ _); [|discriminate].
      inversion Hret; subst.
      rewrite fs_set_same, remove_files_kept; reflexivity.
    + intros Hnone.
      assert (Hsame : forall l : list str,
                 (forall f, In f l -> cleared_by_create_in f = false) ->
                 filter cleared_by_create_in l = [] /\
                 filter (fun f => negb (cleared_by_create_in f)) l = l).
      { induction l as [|x l IH]; intros Hl; [split; reflexivity|].
        cbn [filter]; rewrite (Hl x) by now left.
        destruct IH as [IH1 IH2]; [intros; apply Hl; now right|].
        cbn [negb]; now rewrite IH1, IH2. }
      destruct (Hsame (fst (remove_files os_remove (index_dir self)
                              (listing index_entries files stored))))
        as [Hnil Hall].
      { intros f Hf; apply Hnone.
        rewrite remove_files_kept in Hf; now apply filter_In in Hf. }
      unfold create_in_can_clear in Hrun; rewrite Hnil, Hall in Hrun.
      cbn [forallb] in Hrun.
      eexists _, _; split; [rewrite Hrun; reflexivity|].
      rewrite fs_set_same, remove_files_kept; reflexivity.
  - intros H; unfold clear_index; now rewrite H.
Qed.

Lemma clear_index_leftovers_witness :
  used_fs $"indexdir" = Present [$"notes.tmp"; $"stale.lock"] (Some small_corpus) /\
  exists fs' m warnings,
    clear_index removable sample_entries toc_name used_fs
                {| index_dir := $"indexdir"; ix := small_corpus |}
    = (Returns (fs', m), warnings) /\
    fs' $"indexdir" = Present [$"stale.lock"] (Some []) /\
    length warnings = 2.
Proof.
  split; [reflexivity|].
  destruct (proj1 (clear_index_leftovers removable sample_entries toc_name
                     used_fs
                     {| index_dir := $"indexdir"; ix := small_corpus |})
                  [$"notes.tmp"; $"stale.lock"] (Some small_corpus) eq_refl)
    as (_ & Hlen & Hfs & _).
  eexists _, _, _; split; [reflexivity|].
  split; [exact (Hfs _ _ eq_refl)|exact Hlen].
Defined.

(** ** More on snippets *)

Section MoreSnippetFacts.

Variable lower : str -> str.
Variable is_word : Py.char -> bool.
Lemma findall_words_aux_nonempty (s : str) :
  forall acc term, In term (findall_words_aux is_word acc s) -> term <> [].
Proof.
  induction s as [|c s IH]; intros acc term; simpl.
  - destruct acc as [|a acc]; [intros []|].
    intros [<-|[]]; simpl; apply not_eq_sym, app_cons_not_nil.
  - destruct (is_word c); [apply IH|].
    destruct acc as [|a acc]; [apply IH|].
    intros [<-|H]; [simpl; apply not_eq_sym, app_cons_not_nil|eapply IH, H].
Qed.

Lemma findall_words_aux_none (s : str) :
  forallb (fun c => negb (is_word c)) s = true ->
  findall_words_aux is_word [] s = [].
Proof.
  induction s as [|c s IH]; simpl; [reflexivity|].
  intros H; apply andb_true_iff in H as [Hc Hs].
  apply negb_true_iff in Hc; rewrite Hc; auto.
Qed.

Lemma first_matching_line_some (query_terms lines : list str) (sl : str) :
  first_matching_line lower query_terms lines = Some sl ->
  exists line term,
    In line lines /\ sl = Py.strip line /\
    In term query_terms /\ Py.contains (lower line) term = true.
Proof.
  induction lines as [|line rest IH]; simpl; [discriminate|].
  destruct (existsb _ query_terms) eqn:E.
  - intros H; injection H as <-.
    apply existsb_exists in E as (term & Hin & Hc).
    exists line, term; auto.
  - intros H; destruct (IH H) as (l & t & Hl & Hrest).
    exists l, t; auto.
Qed.

End MoreSnippetFacts.

Lemma split_no_sep (sep : Py.char) (s : str) :
  forall line, In line (Py.split sep s) -> ~ In sep line.
Proof.
  induction s as [|c s IH]; simpl.
  - intros line [<-|[]] [].
  - destruct (N.eqb c sep) eqn:E.
    + intros line [<-|H]; [intros []|auto].
    + apply N.eqb_neq in E.
      destruct (Py.split sep s) as [|w ws]; simpl.
      * intros line [<-|[]] [H|[]]; congruence.
      * intros line [<-|H]; [|apply IH; now right].
        intros [H|H]; [congruence|].
        apply (IH w); [now left|exact H].
Qed.

Lemma lstrip_In (s : str) (x : Py.char) : In x (Py.lstrip s) -> In x s.
Proof.
  induction s as [|c s IH]; simpl; [tauto|].
  destruct (Py.isspace c); simpl; tauto.
Qed.

Lemma strip_In (s : str) (x : Py.char) : In x (Py.strip s) -> In x s.
Proof.
  unfold Py.strip, Py.rstrip; intros H.
  apply lstrip_In; apply in_rev in H; apply lstrip_In in H.
  now apply in_rev.
Qed.

Lemma lstrip_head (s : str) (c : Py.char) (t : str) :
  Py.lstrip s = c :: t -> Py.isspace c = false.
Proof.
  induction s as [|x s IH]; simpl; [discriminate|].
  destruct (Py.isspace x) eqn:E; [exact IH|].
  intros H; injection H as <- _; exact E.
Qed.

Lemma lstrip_snoc (u : str) (c : Py.char) :
  Py.isspace c = false -> Py.lstrip (u ++ [c]) = Py.lstrip u ++ [c].
Proof.
  intros Hc; induction u as [|x u IH]; simpl; [now rewrite Hc|].
  destruct (Py.isspace x); [exact IH|reflexivity].
Qed.

Lemma strip_head (s : str) (c : Py.char) (t : str) :
  Py.strip s = c :: t -> Py.isspace c = false.
Proof.
  unfold Py.strip, Py.rstrip.
  destruct (Py.lstrip s) as [|x u] eqn:E; [discriminate|].
  pose proof (lstrip_head s x u E) as Hx.
  simpl rev; rewrite (lstrip_snoc _ x Hx), rev_app_distr; simpl.
  intros H; injection H as <- _; exact Hx.
Qed.

Lemma truncate_In (snippet_line : str) (x : Py.char) :
  In x (truncate snippet_line) -> In x snippet_line \/ x = 46%N.
Proof.
  unfold truncate, Py.slice_to.
  destruct (100 <? length snippet_line); [|tauto].
  intros H; apply in_app_or in H as [H|H].
  - left; rewrite <- (firstn_skipn 100 snippet_line); apply in_or_app; now left.
  - right; simpl in H; intuition.
Qed.

Lemma truncate_head (c : Py.char) (t : str) :
  exists t', truncate (c :: t) = c :: t'.
Proof.
  unfold truncate, Py.slice_to.
  destruct (100 <? length (c :: t)); simpl; eauto.
Qed.


(** X17: a document with empty content, as a failed extraction leaves it,
    previews as the placeholder whatever the query. *)
Theorem snippet_of_empty_content
  (lower : str -> str) (is_word : Py.char -> bool)
  (re_sub_bold : str -> str -> str) (query : str) :
  lower [] = [] ->
  _generate_snippet lower is_word re_sub_bold [] query = no_preview.
Proof.
  intros Hlower.
  rewrite generate_snippet_cases; unfold snippet_text.
  rewrite first_matching_line_none; [reflexivity|].
  intros line term [<-|[]] Hterm.
  rewrite Hlower.
  apply findall_words_aux_nonempty in Hterm.
  destruct term; [contradiction|reflexivity].
Qed.

Lemma snippet_of_empty_content_witness :
  Py.ascii_lower [] = [] /\
  _generate_snippet Py.ascii_lower Py.ascii_word Py.ascii_sub_bold
                    [] $"alpha beta" = no_preview.
Proof.
  split; [reflexivity|].
  apply snippet_of_empty_content; reflexivity.
Defined.

(** X18: a query without a word character, empty or of punctuation and
    white space only, previews every document as the placeholder. *)
Theorem snippet_of_wordless_query
  (lower : str -> str) (is_word : Py.char -> bool)
  (re_sub_bold : str -> str -> str) (content query : str) :
  forallb (fun c => negb (is_word c)) (lower query) = true ->
  _generate_snippet lower is_word re_sub_bold content query = no_preview.
Proof.
  intros H.
  rewrite generate_snippet_cases; unfold snippet_text, findall_words.
  rewrite (findall_words_aux_none is_word _ H).
  rewrite first_matching_line_none; [reflexivity|].
  intros line term _ [].
Qed.

Lemma snippet_of_wordless_query_witness :
  forallb (fun c => negb (Py.ascii_word c)) (Py.ascii_lower $" ?! ") = true /\
  _generate_snippet Py.ascii_lower Py.ascii_word Py.ascii_sub_bold
                    $"alpha ?! beta" $" ?! " = no_preview.
Proof.
  split; [reflexivity|].
  apply snippet_of_wordless_query; reflexivity.
Defined.

(** X19: the snippet text, before the markers, is one line: it holds no
    newline, it is not empty and it begins with a character that is not
    white space; it comes from a line of the content that contains a
    query term once lowered. *)
Theorem snippet_text_is_one_line
  (lower : str -> str) (is_word : Py.char -> bool)
  (content query snippet : str) :
  snippet_text lower is_word content query = Some snippet ->
  ~ In 10%N snippet /\
  (exists c rest, snippet = c :: rest /\ Py.isspace c = false) /\
  exists line term,
    In line (Py.split 10%N content) /\
    In term (findall_words is_word (lower query)) /\
    Py.contains (lower line) term = true /\
    snippet = truncate (Py.strip line).
Proof.
  unfold snippet_text.
  destruct (first_matching_line lower _ _) as [sl|] eqn:E; [|discriminate].
  apply first_matching_line_some in E as (line & term & Hline & -> & Hterm & Hc).
  destruct (Py.strip line) as [|c rest] eqn:Es; [discriminate|].
  cbn [Py.truthy]; intros H; injection H as <-.
  split; [|split].
  - intros H; destruct (truncate_In _ _ H) as [H'|H']; [|discriminate].
    rewrite <- Es in H'.
    exact (split_no_sep 10%N content line Hline (strip_In _ _ H')).
  - destruct (truncate_head c rest) as [t' ->].
    exists c, t'; split; [reflexivity|exact (strip_head line c rest Es)].
  - exists line, term; rewrite Es; auto.
Qed.

Lemma snippet_text_is_one_line_witness :
  snippet_text Py.ascii_lower Py.ascii_word
               ($"first" ++ newline ++ $"  The Quick fox  " ++ newline ++ $"quick")
               $"QUICK"
  = Some $"The Quick fox" /\
  ~ In 10%N $"The Quick fox".
Proof.
  assert (H : snippet_text Py.ascii_lower Py.ascii_word
                ($"first" ++ newline ++ $"  The Quick fox  " ++ newline ++ $"quick")
                $"QUICK" = Some $"The Quick fox") by (vm_compute; reflexivity).
  split; [exact H|].
  exact (proj1 (snippet_text_is_one_line Py.ascii_lower Py.ascii_word _ _ _ H)).
Defined.

(** ** More on extraction *)

(** X20: a member of an [.hwpx] archive that cannot be parsed costs only
    its own text.  When the archive opens, [HWPXParser] returns the
    stripped join, in archive order, of the texts of the members under
    [Contents/] named [*.xml] that parse, and logs one record for each
    such member that does not. *)
Theorem hwpx_skips_broken_members
  (lower : str -> str) (w : world) (file_path : str)
  (members : list (str * outcome str)) :
  hwpx_members w file_path = Returns members ->
  parse lower w HWPXParser file_path
  = (Returns
       (Py.strip
          (Py.join newline
             (flat_map
                (fun m =>
                   if Py.startswith (fst m) $"Contents/"
                      && endswith (lower (fst m)) $".xml"
                   then match snd m with
                        | Returns text => [text]
                        | Raises _ => []
                        end
                   else [])
                members))),
     flat_map
       (fun m =>
          if Py.startswith (fst m) $"Contents/"
             && endswith (lower (fst m)) $".xml"
          then match snd m with
               | Returns _ => []
               | Raises _ => [HWPXMemberError (fst m) file_path]
               end
          else [])
       members).
Proof.
  intros H; unfold parse, try_except, bind, lift, ret.
  rewrite H, hwpx_collect_run; cbn [app].
  now rewrite app_nil_r.
Qed.

Lemma hwpx_skips_broken_members_witness :
  hwpx_members sample_world $"/docs/a.hwpx"
  = Returns [($"Contents/section0.xml", Returns $"alpha");
             ($"Contents/section1.xml", Raises LibraryError);
             ($"META-INF/manifest.xml", Returns $"ignored")] /\
  parse Py.ascii_lower sample_world HWPXParser $"/docs/a.hwpx"
  = (Returns $"alpha",
     [HWPXMemberError $"Contents/section1.xml" $"/docs/a.hwpx"]).
Proof.
  split; [reflexivity|].
  exact (hwpx_skips_broken_members Py.ascii_lower sample_world $"/docs/a.hwpx"
           _ eq_refl).
Defined.

(** X21: what [parse_file] logs.  When the extraction fails it logs exactly
    one record, naming the file: the parser-selection error when no parser
    fits, the error of the chosen parser otherwise.  When the extraction
    goes through, nothing is logged but the skipped members of an [.hwpx]
    archive. *)
Theorem parse_file_log
  (lower : str -> str) (w : world) (file_path : str) :
  match extraction lower w file_path with
  | Raises _ =>
      exists r,
        snd (parse_file lower w file_path) = [r] /\
        match get_parser lower file_path with
        | Raises _ => r = ParserSelectError file_path
        | Returns p => r = ParserError p file_path
        end
  | Returns _ =>
      forall r, In r (snd (parse_file lower w file_path)) ->
                exists name, r = HWPXMemberError name file_path
  end.
Proof.
  unfold extraction, parse_file, try_except, bind, lift, ret, logger_error.
  destruct (get_parser lower file_path) as [p|e]; [|cbn; eauto].
  destruct p; unfold parse, try_except, bind, lift, ret, logger_error.
  - destruct (hwp5txt w file_path); cbn; [tauto|eauto].
  - destruct (hwpx_members w file_path) as [members|e]; [|cbn; eauto].
    rewrite hwpx_collect_run; cbn.
    rewrite !app_nil_r; intros r Hr.
    apply in_flat_map in Hr as (m & _ & Hr).
    destruct (_ && _); [|destruct Hr].
    destruct (snd m); [destruct Hr|].
    destruct Hr as [<-|[]]; eauto.
  - destruct (pdf_pages w file_path); cbn; [tauto|eauto].
  - destruct (excel_lines w file_path); cbn; [tauto|eauto].
Qed.

(** X22: a job fails exactly when the modification time of the file cannot
    be read, with that exception; otherwise it succeeds, whatever the
    extraction did, with the path, its base name, its lowered extension,
    the text [parse_file] returned and the modification time. *)
Theorem parse_job_outcome
  (lower : str -> str) (w : world) (fpath : str) :
  match getmtime w fpath with
  | Raises e => fst (parse_job lower w fpath) = JobErr fpath e
  | Returns m =>
      exists content,
        fst (parse_file lower w fpath) = Returns content /\
        fst (parse_job lower w fpath)
        = JobOk {| path := fpath;
                   filename := OsPath.basename fpath;
                   extension := lower (snd (OsPath.splitext fpath));
                   content := content;
                   modified := m |}
  end.
Proof.
  destruct (getmtime w fpath) as [m|e] eqn:E.
  - destruct (parse_file_returns lower w fpath) as (s & logs & H).
    exists s; split; [now rewrite H|].
    unfold parse_job, bind, lift, ret; now rewrite H, E.
  - now apply parse_job_err.
Qed.

(** ** More on the trace of a run *)

Lemma monitor_progress_bounds
  (progress_callback : bool) (cancel_callback : option (nat -> bool))
  (clock : nat -> Z) (total_files : nat) (futures : list job_result) :
  forall i results trace current total elapsed,
    In (Progress current total elapsed)
       (snd (monitor progress_callback cancel_callback clock total_files
                     i futures results trace)) ->
    In (Progress current total elapsed) trace \/
    (total = total_files /\
     i <= current < i + observed cancel_callback i futures /\
     (elapsed = 0%Z \/ elapsed = (clock current - clock 0%nat)%Z)).
Proof.
  induction futures as [|future rest IH];
    intros i results trace current total elapsed; cbn [monitor observed snd].
  - tauto.
  - destruct (cancelled cancel_callback i); cbn [snd].
    + intros H; apply in_app_or in H as [H|[H|[]]]; [tauto|discriminate].
    + destruct future as [d|f e]; intros H; apply IH in H as [H|H];
        try (right; intuition lia).
      * apply in_app_or in H as [H|H]; [tauto|].
        unfold call_progress in H; destruct progress_callback; [|destruct H].
        destruct H as [H|[]]; inversion H; subst; right; intuition lia.
      * unfold call_progress in H.
        repeat (apply in_app_or in H as [H|H]); try tauto;
          try (destruct H as [H|[]]; [discriminate]);
          destruct progress_callback; try (destruct H; fail);
          destruct H as [H|[]]; inversion H; subst; right; intuition lia.
Qed.

Lemma monitor_cancel_logged
  (progress_callback : bool) (cancel_callback : option (nat -> bool))
  (clock : nat -> Z) (total_files : nat) (futures : list job_result) :
  forall i results trace,
    observed cancel_callback i futures < length futures ->
    exists events,
      snd (monitor progress_callback cancel_callback clock total_files
                   i futures results trace)
      = trace ++ events ++ [Logged CancelRequested].
Proof.
  induction futures as [|future rest IH]; intros i results trace;
    cbn [monitor observed length].
  - lia.
  - destruct (cancelled cancel_callback i); cbn [snd].
    + intros _; now exists [].
    + intros H; apply Nat.succ_lt_mono in H.
      destruct future as [d|f e].
      * destruct (IH (S i) (results ++ [d])
                     (trace ++ call_progress progress_callback i total_files
                                             (clock i - clock 0)) H)
          as [events ->].
        exists (call_progress progress_callback i total_files
                              (clock i - clock 0) ++ events).
        now rewrite <- !app_assoc.
      * destruct (IH (S i) results
                     ((trace ++ [Logged (JobError f e)]
                             ++ call_progress progress_callback i total_files 0)
                        ++ call_progress progress_callback i total_files
                                         (clock i - clock 0)) H)
          as [events ->].
        exists (([Logged (JobError f e)]
                   ++ call_progress progress_callback i total_files 0)
                  ++ call_progress progress_callback i total_files
                                   (clock i - clock 0) ++ events).
        now rewrite <- !app_assoc.
Qed.

Lemma observed_le (cancel_callback : option (nat -> bool))
      (futures : list job_result) :
  forall i, observed cancel_callback i futures <= length futures.
Proof.
  induction futures as [|f rest IH]; intros i; cbn [observed length]; [lia|].
  destruct (cancelled cancel_callback i); [lia|].
  specialize (IH (S i)); lia.
Qed.

Lemma index_files_trace
  (lower : str -> str) (w : world) (progress_callback : bool)
  (cancel_callback : option (nat -> bool)) (clock : nat -> Z)
  (ix : index) (file_paths completion : list str) :
  snd (index_files lower w progress_callback cancel_callback clock
                   ix file_paths completion)
  = snd (monitor progress_callback cancel_callback clock (length file_paths)
                 1 (jobs_run lower w completion) [] []).
Proof.
  unfold index_files, jobs_run.
  now destruct (monitor _ _ _ _ _ _ _ _).
Qed.

(** X23: every call of the progress callback reports the number of
    submitted files as the total and a count between 1 and that total,
    with an elapsed time that is 0 or the time since the start of the
    run. *)
Theorem progress_calls_in_range
  (lower : str -> str) (w : world) (progress_callback : bool)
  (cancel_callback : option (nat -> bool)) (clock : nat -> Z)
  (ix : index) (file_paths completion : list str)
  (current total : nat) (elapsed : Z) :
  Permutation completion file_paths ->
  In (Progress current total elapsed)
     (snd (index_files lower w progress_callback cancel_callback clock
                       ix file_paths completion)) ->
  total = length file_paths /\
  1 <= current <= length file_paths /\
  (elapsed = 0%Z \/ elapsed = (clock current - clock 0%nat)%Z).
Proof.
  intros Hperm H; rewrite index_files_trace in H.
  apply monitor_progress_bounds in H as [[]|(Ht & Hc & He)].
  pose proof (observed_le cancel_callback (jobs_run lower w completion) 1) as Hle.
  unfold jobs_run in Hle at 2; rewrite length_map in Hle.
  rewrite (Permutation_length Hperm) in Hle.
  repeat split; try assumption; lia.
Qed.

Lemma progress_calls_in_range_witness :
  Permutation three_pdfs three_pdfs /\
  In (Progress 2 3 2)
     (snd (index_files Py.ascii_lower sample_world true None ticking []
                       three_pdfs three_pdfs)) /\
  2 <= length three_pdfs.
Proof.
  assert (H : In (Progress 2 3 2)
                 (snd (index_files Py.ascii_lower sample_world true None ticking
                                   [] three_pdfs three_pdfs)))
    by (vm_compute; right; left; reflexivity).
  split; [apply Permutation_refl|split; [exact H|]].
  destruct (progress_calls_in_range Py.ascii_lower sample_world true None
              ticking [] three_pdfs three_pdfs 2 3 2
              (Permutation_refl _) H) as (_ & [_ Hle] & _).
  exact Hle.
Defined.

(** X24: once a poll answers true the run reports nothing more: when the
    poll that follows [k] handled completions is the first to answer true,
    every progress call has a count of at most [k], and the last thing the
    loop does is to log that cancellation was requested. *)
Theorem cancelled_run_trace
  (lower : str -> str) (w : world) (progress_callback : bool)
  (poll : nat -> bool) (clock : nat -> Z) (ix : index)
  (file_paths completion : list str) (k : nat) :
  Permutation completion file_paths ->
  (forall i, 1 <= i <= k -> poll i = false) ->
  poll (S k) = true ->
  k < length file_paths ->
  (exists events,
      snd (index_files lower w progress_callback (Some poll) clock
                       ix file_paths completion)
      = events ++ [Logged CancelRequested]) /\
  forall current total elapsed,
    In (Progress current total elapsed)
       (snd (index_files lower w progress_callback (Some poll) clock
                         ix file_paths completion)) ->
    current <= k.
Proof.
  intros Hperm Hfalse Htrue Hk.
  assert (Hobs : observed (Some poll) 1 (jobs_run lower w completion) = k).
  { apply observed_until.
    - intros j Hj; apply Hfalse; lia.
    - exact Htrue.
    - unfold jobs_run; rewrite length_map, (Permutation_length Hperm); exact Hk. }
  rewrite index_files_trace.
  split.
  - destruct (monitor_cancel_logged progress_callback (Some poll) clock
                (length file_paths) (jobs_run lower w completion) 1 [] [])
      as [events ->]; [|now exists events].
    rewrite Hobs; unfold jobs_run.
    rewrite length_map, (Permutation_length Hperm); exact Hk.
  - intros current total elapsed H.
    apply monitor_progress_bounds in H as [[]|(_ & Hc & _)].
    rewrite Hobs in Hc; lia.
Qed.

Lemma cancelled_run_trace_witness :
  Permutation three_pdfs three_pdfs /\
  exists events,
    snd (index_files Py.ascii_lower sample_world true (Some cancel_after_one)
                     ticking [] three_pdfs three_pdfs)
    = events ++ [Logged CancelRequested].
Proof.
  split; [apply Permutation_refl|].
  apply (cancelled_run_trace Py.ascii_lower sample_world true cancel_after_one
           ticking [] three_pdfs three_pdfs 1 (Permutation_refl _)).
  - intros i Hi; assert (i = 1) as -> by lia; reflexivity.
  - reflexivity.
  - unfold three_pdfs; simpl; lia.
Defined.

(** ** Reindexing *)

Lemma upsert_from (docs : list Doc) (ix : index) (d : Doc) :
  In d (commit (fold_left update_document docs (writer ix))) ->
  In d ix \/ In d docs.
Proof.
  rewrite upsert_In; tauto.
Qed.

Lemma upsert_length (docs : list Doc) (ix : index) :
  length (commit (fold_left update_document docs (writer ix)))
  <= length ix + length docs.
Proof.
  rewrite commit_upsert, length_app.
  pose proof (filter_length_le
                (fun d => negb (str_in (path d) (map path docs))) ix).
  lia.
Qed.

Lemma observed_never (poll : nat -> bool) (futures : list job_result) :
  (forall i, poll i = false) ->
  forall i, observed (Some poll) i futures = length futures.
Proof.
  intros H; induction futures as [|f rest IH]; intros i; cbn; [reflexivity|].
  now rewrite H, IH.
Qed.

Section ReindexFacts.

Variable lower : str -> str.
Variable w : world.
Variable os_walk : str -> list (str * list str).
Variable os_remove : str -> nat -> bool.
Variable schedule : list str -> list str.
Variable clock : nat -> Z.
Variables start_time end_time now : Z.
Variable cancel_requested : nat -> bool.
Variable cancelled_at_end : bool.

Lemma reindexed_from_jobs (files : list str) (d : Doc) :
  Permutation (schedule files) files ->
  In d (fst (index_files lower w true (Some cancel_requested) clock
                         [] files (schedule files))) ->
  In (path d) files /\ fst (parse_job lower w (path d)) = JobOk d.
Proof.
  intros Hperm H; rewrite index_files_commits in H.
  apply upsert_from in H as [[]|H].
  unfold jobs_run in H; rewrite firstn_map in H.
  apply (successes_from_job lower w) in H as [Hin Hjob].
  split; [|exact Hjob].
  apply (Permutation_in _ Hperm).
  rewrite <- (firstn_skipn (observed (Some cancel_requested) 1
                              (map (fun f => fst (parse_job lower w f))
                                   (schedule files)))
                           (schedule files)).
  apply in_or_app; now left.
Qed.

Lemma reindexed_all_jobs (files : list str) (d : Doc) :
  Permutation (schedule files) files ->
  (forall i, cancel_requested i = false) ->
  In (path d) files -> fst (parse_job lower w (path d)) = JobOk d ->
  In d (fst (index_files lower w true (Some cancel_requested) clock
                         [] files (schedule files))).
Proof.
  intros Hperm Hnever Hin Hjob; rewrite index_files_commits.
  rewrite observed_never by exact Hnever.
  rewrite firstn_all.
  apply upsert_In; right.
  apply (successes_of_job lower w (schedule files) (path d)); [|exact Hjob].
  apply (Permutation_in _ (Permutation_sym Hperm)); exact Hin.
Qed.

Lemma reindexed_size (files : list str) :
  Permutation (schedule files) files ->
  length (fst (index_files lower w true (Some cancel_requested) clock
                           [] files (schedule files))) <= length files.
Proof.
  intros Hperm; rewrite index_files_commits.
  etransitivity; [apply upsert_length|]; cbn [length plus].
  etransitivity; [apply successes_length|].
  rewrite length_firstn; unfold jobs_run.
  rewrite length_map, (Permutation_length Hperm); lia.
Qed.

End ReindexFacts.

(** X25: a reindex on an existing index directory comes to an end exactly
    when [clear_index] goes through, cancelled or not.  The worker then
    leaves the indexing flag cleared and the buttons restored; the index
    holds nothing of what it held before, only documents built by jobs of
    the collected files, no more than there are collected files, and at
    most one per path when no file was collected twice; the directory
    holds that index.  When [create_in] cannot delete an old table of
    contents, the worker ends on that exception with the flag still set. *)
Theorem reindex_ends_idle
  (lower : str -> str) (w : world) (os_walk : str -> list (str * list str))
  (os_remove : str -> nat -> bool) (index_entries : index -> list str)
  (cleared_by_create_in : str -> bool) (schedule : list str -> list str)
  (clock : nat -> Z) (start_time end_time now : Z)
  (cancel_requested : nat -> bool) (cancelled_at_end : bool)
  (self : Indexing) (fs : filesystem) (idx_manager : IndexManager)
  (monitor_dirs files0 : list str) (stored : option index) :
  fs (index_dir idx_manager) = Present files0 stored ->
  (forall l, Permutation (schedule l) l) ->
  (create_in_can_clear os_remove cleared_by_create_in (index_dir idx_manager)
     (fst (remove_files os_remove (index_dir idx_manager)
                        (listing index_entries files0 stored))) = true ->
   exists self' fs' idx_manager',
     thread_target lower w os_walk os_remove index_entries cleared_by_create_in
                   schedule clock start_time end_time
                   now cancel_requested cancelled_at_end
                   self fs idx_manager monitor_dirs
     = (Returns (fs', idx_manager'), self') /\
     is_indexing self' = false /\
     reindex_button self' = LabelReindex /\
     settings_button_enabled self' = true /\
     search_button_enabled self' = true /\
     (forall d, In d (ix idx_manager') ->
                In (path d) (_collect_files lower os_walk monitor_dirs) /\
                fst (parse_job lower w (path d)) = JobOk d) /\
     (NoDup (_collect_files lower os_walk monitor_dirs) ->
      NoDup (map path (ix idx_manager'))) /\
     length (ix idx_manager')
     <= length (_collect_files lower os_walk monitor_dirs) /\
     exists kept,
       fs' (index_dir idx_manager) = Present kept (Some (ix idx_manager'))) /\
  (create_in_can_clear os_remove cleared_by_create_in (index_dir idx_manager)
     (fst (remove_files os_remove (index_dir idx_manager)
                        (listing index_entries files0 stored))) = false ->
   exists self',
     thread_target lower w os_walk os_remove index_entries cleared_by_create_in
                   schedule clock start_time end_time
                   now cancel_requested cancelled_at_end
                   self fs idx_manager monitor_dirs
     = (Raises OSError, self') /\
     is_indexing self' = true).
Proof.
  intros Hfs Hsched.
  unfold thread_target.
  rewrite (clear_index_run os_remove index_entries cleared_by_create_in
                           fs idx_manager files0 stored Hfs).
  split; intros Hclear; rewrite Hclear; cbn [fst index_dir ix];
    [|eexists; split; reflexivity].
  set (files := _collect_files lower os_walk monitor_dirs).
  destruct (length files =? 0) eqn:E.
  - eexists _, _, _; split; [reflexivity|].
    do 4 (split; [reflexivity|]).
    cbn [ix].
    split; [intros d []|].
    split; [constructor|].
    split; [cbn; lia|].
    eexists; apply fs_set_same.
  - eexists _, _, _; split; [reflexivity|].
    do 4 (split; [reflexivity|]).
    cbn [ix].
    split; [intros d Hd; exact (reindexed_from_jobs lower w schedule clock
                                  cancel_requested files d (Hsched files) Hd)|].
    split.
    { intros Hnd; rewrite index_files_commits.
      apply upsert_nodup; [constructor|].
      unfold jobs_run at 2; rewrite firstn_map.
      apply (successes_nodup lower w), nodup_firstn.
      exact (Permutation_NoDup (Permutation_sym (Hsched files)) Hnd). }
    split; [exact (reindexed_size lower w schedule clock cancel_requested files
                     (Hsched files))|].
    unfold persist; rewrite fs_set_same.
    eexists; apply fs_set_same.
Qed.

Lemma reindex_ends_idle_witness :
  used_fs $"indexdir" = Present [$"notes.tmp"; $"stale.lock"] (Some small_corpus) /\
  create_in_can_clear removable toc_name $"indexdir"
    (fst (remove_files removable $"indexdir"
            (listing sample_entries [$"notes.tmp"; $"stale.lock"]
                     (Some small_corpus)))) = true /\
  exists self' fs' idx_manager',
    thread_target Py.ascii_lower sample_world sample_walk removable
                  sample_entries toc_name last_first
                  ticking 0 5 1700000100 cancel_after_one true
                  idle used_fs {| index_dir := $"indexdir"; ix := small_corpus |}
                  [$"/docs"]
    = (Returns (fs', idx_manager'), self') /\
    is_indexing self' = false /\
    length (ix idx_manager') <= 3.
Proof.
  split; [reflexivity|split; [vm_compute; reflexivity|]].
  destruct (proj1 (reindex_ends_idle Py.ascii_lower sample_world sample_walk
              removable sample_entries toc_name
              last_first ticking 0 5 1700000100 cancel_after_one true
              idle used_fs {| index_dir := $"indexdir"; ix := small_corpus |}
              [$"/docs"] [$"notes.tmp"; $"stale.lock"] (Some small_corpus)
              eq_refl (fun l => Permutation_sym (Permutation_rev l))) eq_refl)
    as (self' & fs' & m' & H & Hidle & _ & _ & _ & _ & _ & Hlen & _).
  exists self', fs', m'; split; [exact H|split; [exact Hidle|exact Hlen]].
Defined.

(** Two monitored folders, one inside the other: the files of the inner
    one are collected twice, and the rebuilt index holds two documents for
    the path. *)
Lemma nested_folders_indexed_twice :
  length (filter (Py.eqb $"/docs/old/c.xlsx")
                 (_collect_files Py.ascii_lower sample_walk
                                 [$"/docs"; $"/docs/old"])) = 2 /\
  exists fs' idx_manager' self',
    thread_target Py.ascii_lower sample_world sample_walk removable
                  sample_entries toc_name last_first
                  ticking 0 5 1700000100 never false
                  idle used_fs {| index_dir := $"indexdir"; ix := small_corpus |}
                  [$"/docs"; $"/docs/old"]
    = (Returns (fs', idx_manager'), self') /\
    length (filter (fun d => Py.eqb (path d) $"/docs/old/c.xlsx")
                   (ix idx_manager')) = 2.
Proof.
  split; [vm_compute; reflexivity|].
  eexists _, _, _; split; [vm_compute; reflexivity|].
  vm_compute; reflexivity.
Qed.

(** X26: when [clear_index] goes through and no poll sees a cancellation
    request, a reindex rebuilds the index from the collected files alone:
    afterwards a document is in the index exactly when it is the one the
    job of a collected file built.  The status then counts the collected
    files, not the documents, and says "cancelled" instead when the flag
    was set after the last poll; with no file collected it says so and the
    progress bar stays at 0. *)
Theorem reindex_rebuilds
  (lower : str -> str) (w : world) (os_walk : str -> list (str * list str))
  (os_remove : str -> nat -> bool) (index_entries : index -> list str)
  (cleared_by_create_in : str -> bool) (schedule : list str -> list str)
  (clock : nat -> Z) (start_time end_time now : Z)
  (cancel_requested : nat -> bool) (cancelled_at_end : bool)
  (self : Indexing) (fs : filesystem) (idx_manager : IndexManager)
  (monitor_dirs files0 : list str) (stored : option index) :
  fs (index_dir idx_manager) = Present files0 stored ->
  create_in_can_clear os_remove cleared_by_create_in (index_dir idx_manager)
    (fst (remove_files os_remove (index_dir idx_manager)
                       (listing index_entries files0 stored))) = true ->
  (forall l, Permutation (schedule l) l) ->
  (forall i, cancel_requested i = false) ->
  exists self' fs' idx_manager',
    thread_target lower w os_walk os_remove index_entries cleared_by_create_in
                  schedule clock start_time end_time
                  now cancel_requested cancelled_at_end
                  self fs idx_manager monitor_dirs
    = (Returns (fs', idx_manager'), self') /\
    (forall d, In d (ix idx_manager') <->
               In (path d) (_collect_files lower os_walk monitor_dirs) /\
               fst (parse_job lower w (path d)) = JobOk d) /\
    status_var self'
    = match _collect_files lower os_walk monitor_dirs with
      | [] => StatusNoFiles
      | _ :: _ =>
          if cancelled_at_end then StatusCancelled
          else StatusDone (length (_collect_files lower os_walk monitor_dirs))
                          (end_time - start_time)
      end /\
    progress_var self'
    = match _collect_files lower os_walk monitor_dirs with
      | [] => 0%Z
      | _ :: _ => 100%Z
      end /\
    last_index_time self'
    = match _collect_files lower os_walk monitor_dirs with
      | [] => last_index_time self
      | _ :: _ => if cancelled_at_end then last_index_time self else Some now
      end.
Proof.
  intros Hfs Hclear Hsched Hnever.
  unfold thread_target.
  rewrite (clear_index_run os_remove index_entries cleared_by_create_in
                           fs idx_manager files0 stored Hfs), Hclear.
  cbn [fst index_dir ix].
  set (files := _collect_files lower os_walk monitor_dirs).
  destruct files as [|f files'] eqn:Ef.
  - cbn [length Nat.eqb].
    eexists _, _, _; split; [reflexivity|].
    cbn [ix status_var progress_var last_index_time].
    split; [|repeat split].
    intros d; split; [intros []|intros [[] _]].
  - cbn [length Nat.eqb].
    eexists _, _, _; split; [reflexivity|].
    cbn [ix status_var progress_var last_index_time].
    split; [|repeat split].
    intros d; split.
    + apply (reindexed_from_jobs lower w schedule clock cancel_requested
               (f :: files') d (Hsched _)).
    + intros [Hin Hjob].
      now apply (reindexed_all_jobs lower w schedule clock cancel_requested
                   (f :: files') d (Hsched _) Hnever).
Qed.

Lemma reindex_rebuilds_witness :
  used_fs $"indexdir" = Present [$"notes.tmp"; $"stale.lock"] (Some small_corpus) /\
  exists self' fs' idx_manager',
    thread_target Py.ascii_lower sample_world sample_walk removable
                  sample_entries toc_name last_first
                  ticking 0 5 1700000100 never false
                  idle used_fs {| index_dir := $"indexdir"; ix := small_corpus |}
                  [$"/docs"]
    = (Returns (fs', idx_manager'), self') /\
    status_var self' = StatusDone 3 5.
Proof.
  split; [reflexivity|].
  destruct (reindex_rebuilds Py.ascii_lower sample_world sample_walk removable
              sample_entries toc_name
              last_first ticking 0 5 1700000100 never false
              idle used_fs {| index_dir := $"indexdir"; ix := small_corpus |}
              [$"/docs"] [$"notes.tmp"; $"stale.lock"] (Some small_corpus)
              eq_refl eq_refl (fun l => Permutation_sym (Permutation_rev l))
              (fun i => eq_refl))
    as (self' & fs' & m' & H & _ & Hstatus & _).
  exists self', fs', m'; split; [exact H|exact Hstatus].
Defined.

(** X27: [clear_index] is not guarded in the worker.  When the index
    directory has disappeared it raises before anything is removed or
    logged, the worker ends there, and the indexing flag stays set with the
    buttons disabled: from then on every reindex request only asks for a
    cancellation and starts no run. *)
Theorem reindex_stuck_when_clear_fails
  (lower : str -> str) (w : world) (os_walk : str -> list (str * list str))
  (os_remove : str -> nat -> bool) (index_entries : index -> list str)
  (cleared_by_create_in : str -> bool) (schedule : list str -> list str)
  (clock : nat -> Z) (start_time end_time now : Z)
  (cancel_requested : nat -> bool) (cancelled_at_end : bool)
  (self : Indexing) (fs : filesystem) (idx_manager : IndexManager)
  (monitor_dirs : list str) :
  fs (index_dir idx_manager) = Absent ->
  exists self',
    clear_index os_remove index_entries cleared_by_create_in fs idx_manager
    = (Raises OSError, []) /\
    thread_target lower w os_walk os_remove index_entries cleared_by_create_in
                  schedule clock start_time end_time
                  now cancel_requested cancelled_at_end
                  self fs idx_manager monitor_dirs
    = (Raises OSError, self') /\
    is_indexing self' = true /\
    settings_button_enabled self' = false /\
    search_button_enabled self' = false /\
    forall (requests : list unit) (dirs : list str),
      is_indexing
        (fold_left (fun s _ => fst (reindex_files s dirs)) requests self')
      = true /\
      snd (reindex_files
             (fold_left (fun s _ => fst (reindex_files s dirs)) requests self')
             dirs)
      = RequestCancel.
Proof.
  intros Hfs; unfold thread_target, clear_index; rewrite Hfs; cbn [fst].
  eexists; split; [reflexivity|].
  split; [reflexivity|].
  do 3 (split; [reflexivity|]).
  intros requests dirs.
  match goal with
  | |- context [fold_left _ _ ?s0] =>
      assert (Hinv : forall (rs : list unit) s, is_indexing s = true ->
                is_indexing (fold_left (fun s _ => fst (reindex_files s dirs))
                                       rs s) = true)
  end.
  { induction rs as [|r rs IH]; intros s Hs; cbn [fold_left]; [exact Hs|].
    apply IH; unfold reindex_files; now rewrite Hs. }
  split; [now apply Hinv|].
  unfold reindex_files at 1; now rewrite Hinv.
Qed.

Lemma reindex_stuck_when_clear_fails_witness :
  no_dirs $"indexdir" = Absent /\
  exists self',
    thread_target Py.ascii_lower sample_world sample_walk removable
                  sample_entries toc_name last_first
                  ticking 0 5 1700000100 never false
                  idle no_dirs {| index_dir := $"indexdir"; ix := small_corpus |}
                  [$"/docs"]
    = (Raises OSError, self') /\
    is_indexing self' = true.
Proof.
  split; [reflexivity|].
  destruct (reindex_stuck_when_clear_fails Py.ascii_lower sample_world
              sample_walk removable sample_entries toc_name
              last_first ticking 0 5 1700000100 never
              false idle no_dirs
              {| index_dir := $"indexdir"; ix := small_corpus |}
              [$"/docs"] eq_refl)
    as (self' & _ & H & Hflag & _).
  exists self'; split; [exact H|exact Hflag].
Defined.

